(** * cg_ctdmo_qct: the CTDMO quality-control test runner

    A shallow embedding of [cg_ctdmo_qct.py] (version 2.1): the serial
    command/response channel ([ser_coms]), the device session helpers
    ([get_remote_id], [reset_remote_id], [split_csv], [date_from_ds],
    [tidy_up]) and the test procedure [ctdmo_qct_test] with its ten
    recorded steps.

    Conventions of the embedding.
    - Python [str] and [bytes] are [string] (8-bit characters); decoding
      and encoding as ASCII are partial and raise [UnicodeError].
    - Python [float] is IEEE 754 binary64, through the Standard Library's
      [SpecFloat] at precision 53 and maximal exponent 1024.
    - [datetime] values are microsecond counts since 0001-01-01 00:00:00
      and [timedelta] values are signed microsecond counts; the fields
      Python exposes ([days], [seconds], [microseconds]) are computed by
      floor division, as [timedelta] normalises them.
    - The serial port, the capture file, the operator's console, the clock
      and the results document live in one [World]; a Python statement is
      a function [World -> outcome A * World].  An exception is [Raise];
      unbounded [while] loops take a fuel argument and give [OutOfFuel] when
      it is used up. *)

From Stdlib Require Import ZArith NArith Arith Lia List String Ascii Bool.
From Stdlib Require Import SpecFloat.
Import ListNotations.
Local Open Scope string_scope.

(* ================================================================== *)
(** * Python text primitives *)
(* ================================================================== *)

Module Py.

Definition code (c : ascii) : N := N_of_ascii c.

Definition CR : ascii := ascii_of_N 13.
Definition LF : ascii := ascii_of_N 10.
Definition CRLF : string := String CR (String LF "").

(** [str.isspace] on the code points below 256. *)
Definition isspace (c : ascii) : bool :=
  let n := code c in
  (((9 <=? n) && (n <=? 13)) || ((28 <=? n) && (n <=? 32))
   || (n =? 133) || (n =? 160))%N.

(** The line boundaries of [str.splitlines] below 256. *)
Definition islinebreak (c : ascii) : bool :=
  let n := code c in
  (((10 <=? n) && (n <=? 13)) || ((28 <=? n) && (n <=? 30)) || (n =? 133))%N.

Definition isdigit (c : ascii) : bool :=
  let n := code c in ((48 <=? n) && (n <=? 57))%N.

Definition digit_value (c : ascii) : N := (code c - 48)%N.

(** [s.splitlines()]: a carriage return followed by a line feed is one
    boundary, and no empty line is produced after a final boundary. *)
Fixpoint splitlines (s : string) : list string :=
  match s with
  | EmptyString => []
  | String c rest =>
      if islinebreak c then
        EmptyString ::
          match rest with
          | EmptyString => []
          | String c' rest' =>
              if (Ascii.eqb c CR && Ascii.eqb c' LF)%bool
              then splitlines rest' else splitlines rest
          end
      else
        match splitlines rest with
        | [] => [String c EmptyString]
        | l :: ls => String c l :: ls
        end
  end.

(** [s.split(sep)] for a one-character separator. *)
Fixpoint split_on (sep : ascii) (s : string) : list string :=
  match s with
  | EmptyString => [EmptyString]
  | String c rest =>
      if Ascii.eqb c sep then EmptyString :: split_on sep rest
      else
        match split_on sep rest with
        | [] => [String c EmptyString]
        | l :: ls => String c l :: ls
        end
  end.

(** [s.split()]: maximal runs of non-whitespace characters. *)
Fixpoint split (s : string) : list string :=
  match s with
  | EmptyString => []
  | String c rest =>
      if isspace c then split rest
      else
        match rest with
        | EmptyString => [String c EmptyString]
        | String c' _ =>
            if isspace c' then String c EmptyString :: split rest
            else
              match split rest with
              | [] => [String c EmptyString]
              | l :: ls => String c l :: ls
              end
        end
  end.

Fixpoint lstrip (s : string) : string :=
  match s with
  | EmptyString => EmptyString
  | String c rest => if isspace c then lstrip rest else s
  end.

Fixpoint rstrip (s : string) : string :=
  match s with
  | EmptyString => EmptyString
  | String c rest =>
      match rstrip rest with
      | EmptyString => if isspace c then EmptyString else String c EmptyString
      | r => String c r
      end
  end.

(** [s.strip()] *)
Definition strip (s : string) : string := rstrip (lstrip s).

(** [sep.join(l)] *)
Definition join (sep : string) (l : list string) : string :=
  String.concat sep l.

(** [needle in hay] *)
Fixpoint contains (needle hay : string) : bool :=
  (String.prefix needle hay ||
   match hay with
   | EmptyString => false
   | String _ rest => contains needle rest
   end)%bool.

(** [s.upper()] on the ASCII letters; other characters are kept. *)
Definition upper_char (c : ascii) : ascii :=
  let n := code c in
  if ((97 <=? n) && (n <=? 122))%N then ascii_of_N (n - 32) else c.

Fixpoint upper (s : string) : string :=
  match s with
  | EmptyString => EmptyString
  | String c rest => String (upper_char c) (upper rest)
  end.

Definition lower_char (c : ascii) : ascii :=
  let n := code c in
  if ((65 <=? n) && (n <=? 90))%N then ascii_of_N (n + 32) else c.

Fixpoint lower (s : string) : string :=
  match s with
  | EmptyString => EmptyString
  | String c rest => String (lower_char c) (lower rest)
  end.

(** [s[a:]] and [s[:-b]] for strings, with Python's clamping. *)
Fixpoint str_drop (n : nat) (s : string) : string :=
  match n, s with
  | O, _ => s
  | S n', String _ rest => str_drop n' rest
  | S _, EmptyString => EmptyString
  end.

Fixpoint str_take (n : nat) (s : string) : string :=
  match n, s with
  | O, _ => EmptyString
  | S n', String c rest => String c (str_take n' rest)
  | S _, EmptyString => EmptyString
  end.

(** [s[a:-b]] with [a], [b] non-negative. *)
Definition str_slice (a b : nat) (s : string) : string :=
  str_drop a (str_take (String.length s - b) s).

(** [l[a:b]] for lists, with Python's clamping. *)
Definition slice {A} (a b : nat) (l : list A) : list A :=
  skipn a (firstn b l).

(** [l[a:b] = xs]: the slice is replaced by [xs], whatever its length. *)
Definition set_slice {A} (a b : nat) (xs l : list A) : list A :=
  firstn a l ++ xs ++ skipn (Nat.max a b) l.

(** [[x] * n] *)
Definition replicate {A} (n : nat) (x : A) : list A := List.repeat x n.

(** Zero-padded decimal fields, as [strftime] writes them. *)
Definition digit_char (n : Z) : ascii := ascii_of_N (48 + Z.to_N (n mod 10)).

Definition pad2 (n : Z) : string :=
  String (digit_char (n / 10)) (String (digit_char n) "").

Definition pad4 (n : Z) : string :=
  String (digit_char (n / 1000)) (String (digit_char (n / 100)) (pad2 n)).

(** [int(s)] on a string of ASCII digits (used on matched tokens only). *)
Fixpoint digits_value (acc : N) (s : string) : N :=
  match s with
  | EmptyString => acc
  | String c rest => digits_value (10 * acc + digit_value c)%N rest
  end.

Fixpoint all_digits (s : string) : bool :=
  match s with
  | EmptyString => true
  | String c rest => (isdigit c && all_digits rest)%bool
  end.

(** [str(n)] for a natural number. *)
Fixpoint str_of_nat_aux (fuel : nat) (n : N) (acc : string) : string :=
  match fuel with
  | O => acc
  | S f =>
      let acc' := String (ascii_of_N (48 + n mod 10)) acc in
      if (n <? 10)%N then acc' else str_of_nat_aux f (n / 10)%N acc'
  end.

Definition str_of_N (n : N) : string :=
  str_of_nat_aux (S (N.to_nat (N.log2 n))) n "".

End Py.

(* ================================================================== *)
(** * Python floats: IEEE 754 binary64 *)
(* ================================================================== *)

Module PyFloat.

Definition prec : Z := 53.
Definition emax : Z := 1024.

Definition float : Type := spec_float.

Definition ltb (x y : float) : bool := SFltb x y.
Definition leb (x y : float) : bool := SFleb x y.
Definition gtb (x y : float) : bool := SFltb y x.
Definition sub (x y : float) : float := SFsub prec emax x y.

(** The float an [int] operand of a comparison stands for. *)
Definition of_Z (z : Z) : float := binary_normalize prec emax z 0 false.

Definition is_nan (x : float) : bool :=
  match x with S754_nan => true | _ => false end.

Definition is_finite (x : float) : bool :=
  match x with S754_zero _ | S754_finite _ _ _ => true | _ => false end.

(** The correctly rounded value of [(-1)^sign * m * 10^e]. *)
Definition of_decimal (sign : bool) (m : N) (e : Z) : float :=
  match m with
  | N0 => S754_zero sign
  | Npos p =>
      if (0 <=? e)%Z
      then binary_round prec emax sign (p * Z.to_pos (10 ^ e)) 0
      else SFdiv prec emax (S754_finite sign p 0)
                           (S754_finite false (Z.to_pos (10 ^ (- e))) 0)
  end.

(** [digitpart ::= digit (["_"] digit)*] *)
Fixpoint digits_tail (s : list ascii) : list ascii * list ascii :=
  match s with
  | [] => ([], [])
  | c :: r =>
      if Py.isdigit c then
        let (ds, r') := digits_tail r in (c :: ds, r')
      else if Ascii.eqb c "_" then
        match r with
        | d :: r2 =>
            if Py.isdigit d then
              let (ds, r') := digits_tail r2 in (d :: ds, r')
            else ([], s)
        | [] => ([], s)
        end
      else ([], s)
  end.

Definition digitpart (s : list ascii) : option (list ascii * list ascii) :=
  match s with
  | c :: r =>
      if Py.isdigit c then
        let (ds, r') := digits_tail r in Some (c :: ds, r')
      else None
  | [] => None
  end.

(** [number ::= [digitpart] "." digitpart | digitpart ["."]] *)
Definition number (s : list ascii)
  : option (list ascii * list ascii * list ascii) :=
  match digitpart s with
  | Some (ip, r) =>
      match r with
      | c :: r2 =>
          if Ascii.eqb c "." then
            match digitpart r2 with
            | Some (fp, r3) => Some (ip, fp, r3)
            | None => Some (ip, [], r2)
            end
          else Some (ip, [], r)
      | [] => Some (ip, [], r)
      end
  | None =>
      match s with
      | c :: r2 =>
          if Ascii.eqb c "." then
            match digitpart r2 with
            | Some (fp, r3) => Some ([], fp, r3)
            | None => None
            end
          else None
      | [] => None
      end
  end.

Definition sign_of (s : list ascii) : bool * list ascii :=
  match s with
  | c :: r =>
      if Ascii.eqb c "-" then (true, r)
      else if Ascii.eqb c "+" then (false, r)
      else (false, s)
  | [] => (false, s)
  end.

Definition value_of (ds : list ascii) : N :=
  fold_left (fun acc c => (10 * acc + Py.digit_value c)%N) ds 0%N.

(** [exponent ::= ("e" | "E") [sign] digitpart]; the rest of the text
    must be empty. *)
Definition exponent (s : list ascii) : option Z :=
  match s with
  | [] => Some 0%Z
  | c :: r =>
      if (Ascii.eqb c "e" || Ascii.eqb c "E")%bool then
        let (neg, r1) := sign_of r in
        match digitpart r1 with
        | Some (ds, []) =>
            let v := Z.of_N (value_of ds) in
            Some (if neg then (- v)%Z else v)
        | _ => None
        end
      else None
  end.

(** [float(s)]: [None] stands for [ValueError]. *)
Definition parse (s : string) : option float :=
  let (neg, body) := sign_of (list_ascii_of_string (Py.strip s)) in
  let word := Py.lower (string_of_list_ascii body) in
  if (String.eqb word "inf" || String.eqb word "infinity")%bool
  then Some (S754_infinity neg)
  else if String.eqb word "nan" then Some S754_nan
  else
    match number body with
    | Some (ip, fp, r) =>
        match exponent r with
        | Some e =>
            Some (of_decimal neg (value_of (ip ++ fp))
                             (e - Z.of_nat (List.length fp)))
        | None => None
        end
    | None => None
    end.

End PyFloat.

(* ================================================================== *)
(** * datetime and timedelta *)
(* ================================================================== *)

Module DateTime.

Local Open Scope Z_scope.

(** Microseconds since 0001-01-01 00:00:00. *)
Definition datetime : Type := Z.
(** Signed microseconds. *)
Definition timedelta : Type := Z.

Definition us_per_second : Z := 1000000.
Definition seconds_per_day : Z := 86400.
Definition us_per_day : Z := seconds_per_day * us_per_second.

Definition of_seconds (s : Z) : timedelta := s * us_per_second.
Definition of_days (d : Z) : timedelta := d * us_per_day.

(** The normalised fields of a [timedelta]:
    [0 <= seconds < 86400] and [0 <= microseconds < 1000000]. *)
Definition days (d : timedelta) : Z := d / us_per_day.
Definition seconds (d : timedelta) : Z := (d mod us_per_day) / us_per_second.
Definition microseconds (d : timedelta) : Z := d mod us_per_second.

(** [a - b] on two datetimes. *)
Definition diff (a b : datetime) : timedelta := a - b.

Definition is_leap (y : Z) : bool :=
  ((y mod 4 =? 0) && (negb (y mod 100 =? 0) || (y mod 400 =? 0)))%bool.

Definition days_in_month (y m : Z) : Z :=
  if m =? 2 then (if is_leap y then 29 else 28)
  else if ((m =? 4) || (m =? 6) || (m =? 9) || (m =? 11))%bool then 30
  else 31.

(** [_DAYS_BEFORE_MONTH] *)
Definition days_before_month_tbl (m : Z) : Z :=
  nth (Z.to_nat m) [0; 0; 31; 59; 90; 120; 151; 181; 212; 243; 273; 304; 334] 0.

Definition days_before_month (y m : Z) : Z :=
  days_before_month_tbl m + (if ((2 <? m) && is_leap y)%bool then 1 else 0).

Definition days_before_year (y : Z) : Z :=
  let y1 := y - 1 in y1 * 365 + y1 / 4 - y1 / 100 + y1 / 400.

(** [_ymd2ord]: 0001-01-01 is day 1. *)
Definition ymd2ord (y m d : Z) : Z :=
  days_before_year y + days_before_month y m + d.

(** [_ord2ymd] *)
Definition ord2ymd (ord : Z) : Z * Z * Z :=
  let n := ord - 1 in
  let n400 := n / 146097 in
  let n := n mod 146097 in
  let n100 := n / 36524 in
  let n := n mod 36524 in
  let n4 := n / 1461 in
  let n := n mod 1461 in
  let n1 := n / 365 in
  let n := n mod 365 in
  let year := n400 * 400 + 1 + n100 * 100 + n4 * 4 + n1 in
  if ((n1 =? 4) || (n100 =? 4))%bool then (year - 1, 12, 31)
  else
    let leapyear := ((n1 =? 3) && (negb (n4 =? 24) || (n100 =? 3)))%bool in
    let month := (n + 50) / 32 in
    let preceding :=
      days_before_month_tbl month
      + (if ((2 <? month) && leapyear)%bool then 1 else 0) in
    if n <? preceding then
      let month' := month - 1 in
      let dim :=
        (if month' =? 2 then 28
         else if ((month' =? 4) || (month' =? 6) || (month' =? 9)
                  || (month' =? 11))%bool then 30 else 31)
        + (if ((month' =? 2) && leapyear)%bool then 1 else 0) in
      (year, month', n - (preceding - dim) + 1)
    else (year, month, n - preceding + 1).

(** [datetime(y, m, d, H, M, S)] with microsecond 0; [None] stands for
    the [ValueError] of an out-of-range field. *)
Definition make (y m d hh mm ss : Z) : option datetime :=
  if ((1 <=? y) && (y <=? 9999) && (1 <=? m) && (m <=? 12)
      && (1 <=? d) && (d <=? days_in_month y m)
      && (0 <=? hh) && (hh <=? 23) && (0 <=? mm) && (mm <=? 59)
      && (0 <=? ss) && (ss <=? 59))%bool
  then Some ((ymd2ord y m d - 1) * us_per_day
             + ((hh * 60 + mm) * 60 + ss) * us_per_second)
  else None.

(** [dt.date()], as the day ordinal. *)
Definition date (t : datetime) : Z := t / us_per_day + 1.

Definition hour (t : datetime) : Z := (t mod us_per_day) / (3600 * us_per_second).
Definition minute (t : datetime) : Z :=
  ((t mod us_per_day) / (60 * us_per_second)) mod 60.
Definition second (t : datetime) : Z :=
  ((t mod us_per_day) / us_per_second) mod 60.

(** [dt.replace(hour=12, minute=0, second=0)]: the date and the
    microsecond field are kept. *)
Definition replace_noon (t : datetime) : datetime :=
  (t / us_per_day) * us_per_day + 12 * 3600 * us_per_second
  + t mod us_per_second.

Definition month_abbr (m : Z) : string :=
  nth (Z.to_nat m)
      [""; "Jan"; "Feb"; "Mar"; "Apr"; "May"; "Jun";
       "Jul"; "Aug"; "Sep"; "Oct"; "Nov"; "Dec"]%string ""%string.

(** [strftime('%m%d%Y%H%M%S')] *)
Definition strftime_cmd (t : datetime) : string :=
  let '(y, m, d) := ord2ymd (date t) in
  (Py.pad2 m ++ Py.pad2 d ++ Py.pad4 y
   ++ Py.pad2 (hour t) ++ Py.pad2 (minute t) ++ Py.pad2 (second t))%string.

(** [strftime('%d %b %Y %H:%M:%S')] *)
Definition strftime_ds (t : datetime) : string :=
  let '(y, m, d) := ord2ymd (date t) in
  (Py.pad2 d ++ " " ++ month_abbr m ++ " " ++ Py.pad4 y ++ " "
   ++ Py.pad2 (hour t) ++ ":" ++ Py.pad2 (minute t) ++ ":"
   ++ Py.pad2 (second t))%string.

(** [strftime("%Y-%m-%d")] *)
Definition strftime_iso (t : datetime) : string :=
  let '(y, m, d) := ord2ymd (date t) in
  (Py.pad4 y ++ "-" ++ Py.pad2 m ++ "-" ++ Py.pad2 d)%string.

(** *** strptime

    The directives of [_strptime] as they match one
    whitespace-delimited token: [%d] is [3[0-1]|[1-2]\d|0[1-9]|[1-9]],
    [%b] a month abbreviation in any letter case, [%Y] four digits,
    [%H] [2[0-3]|[0-1]\d|\d], [%M] [[0-5]\d|\d], [%S]
    [6[0-1]|[0-5]\d|\d]; a blank of the format matches [\s+]. *)

Definition num_token (maxlen : nat) (lo hi : Z) (s : string) : option Z :=
  let len := String.length s in
  if ((1 <=? len)%nat && (len <=? maxlen)%nat && Py.all_digits s)%bool then
    let v := Z.of_N (Py.digits_value 0 s) in
    if ((lo <=? v) && (v <=? hi))%bool then Some v else None
  else None.

Definition match_d (s : string) : option Z := num_token 2 1 31 s.
Definition match_H (s : string) : option Z := num_token 2 0 23 s.
Definition match_M (s : string) : option Z := num_token 2 0 59 s.
Definition match_S (s : string) : option Z := num_token 2 0 61 s.

Definition match_Y (s : string) : option Z :=
  if ((String.length s =? 4)%nat && Py.all_digits s)%bool
  then Some (Z.of_N (Py.digits_value 0 s)) else None.

Fixpoint find_month (name : string) (m : nat) (l : list string) : option Z :=
  match l with
  | [] => None
  | x :: rest =>
      if String.eqb (Py.lower x) name then Some (Z.of_nat m)
      else find_month name (S m) rest
  end.

Definition match_b (s : string) : option Z :=
  find_month (Py.lower s) 1
    ["Jan"; "Feb"; "Mar"; "Apr"; "May"; "Jun";
     "Jul"; "Aug"; "Sep"; "Oct"; "Nov"; "Dec"]%string.

(** [%H:%M:%S] on one token. *)
Definition match_HMS (s : string) : option (Z * Z * Z) :=
  match Py.split_on ":" s with
  | [h; m; sec] =>
      match match_H h, match_M m, match_S sec with
      | Some hh, Some mm, Some ss => Some (hh, mm, ss)
      | _, _, _ => None
      end
  | _ => None
  end.

(** [dt.strptime(s, '%d %b %Y %H:%M:%S')] on a text without leading
    blank. *)
Definition strptime_ds (s : string) : option datetime :=
  if String.eqb (Py.lstrip s) s && String.eqb (Py.rstrip s) s then
    match Py.split s with
    | [d; b; y; hms] =>
        match match_d d, match_b b, match_Y y, match_HMS hms with
        | Some dd, Some bb, Some yy, Some (hh, mm, ss) =>
            make yy bb dd hh mm ss
        | _, _, _, _ => None
        end
    | _ => None
    end
  else None.

(** [dt.strptime(s, '%d %b %Y')] on a text without leading blank. *)
Definition strptime_date (s : string) : option datetime :=
  if String.eqb (Py.lstrip s) s && String.eqb (Py.rstrip s) s then
    match Py.split s with
    | [d; b; y] =>
        match match_d d, match_b b, match_Y y with
        | Some dd, Some bb, Some yy => make yy bb dd 0 0 0
        | _, _, _ => None
        end
    | _ => None
    end
  else None.

End DateTime.

(* ================================================================== *)
(** * The world the program runs in *)
(* ================================================================== *)

(** Python exceptions the program can meet. *)
Inductive exn : Type :=
| IndexError | ValueError | KeyError | EOFError
| UnicodeError | SerialException.

(** The result of running a statement: a value, an exception, or a loop
    that is still running when the fuel is used up. *)
Inductive outcome (A : Type) : Type :=
| Ret (a : A)
| Raise (e : exn)
| OutOfFuel.

Arguments Ret {A} a.
Arguments Raise {A} e.
Arguments OutOfFuel {A}.

(** A pySerial port opened with a read timeout.  [incoming] lists the
    bytes the peer still has to deliver, each with the pause (in
    milliseconds, measured while the program waits in a read) that
    precedes it; [tx] and [reads] record what was written and what each
    read call returned, oldest first. *)
Record Serial : Type := mkSerial {
  is_open : bool;
  read_timeout : nat;
  in_buffer : string;
  incoming : list (nat * ascii);
  tx : list string;
  reads : list string
}.

(** The capture file. *)
Record CapFile : Type := mkCapFile {
  cap_name : string;
  cap_contents : string;
  cap_closed : bool
}.

(** What the runner writes into the results document (python-docx), in
    the order it is written: a placeholder replaced in the header, one
    row of the steps table (row index, evidence, pass mark, fail mark),
    the session-log line, the title, the author and the saved copy. *)
Inductive DocWrite : Type :=
| Fill (placeholder value : string)
| StepRow (row : nat) (evidence : option string) (pass fail : string)
| SessionLog (text : string)
| Title (text : string)
| Author (text : string)
| Save (filename : string).

Record World : Type := mkWorld {
  port_present : bool;                   (* can the port be opened *)
  ser : Serial;
  device : list (list (nat * ascii));    (* the peer's reply to each write *)
  capfile : CapFile;
  stdin : list string;                   (* the operator's answers *)
  stdout : list string;                  (* what was printed, oldest first *)
  clock : nat -> Z;                      (* successive readings of utcnow() *)
  ticks : nat;                           (* readings taken so far *)
  tz_offset : Z;                         (* local time minus UTC *)
  inventory : list (string * string);    (* rows of ctdmo_inv.csv *)
  report : list DocWrite;
  calibrations : list (string * string * string)
}.

Definition with_ser (w : World) (s : Serial) : World :=
  mkWorld (port_present w) s (device w) (capfile w) (stdin w) (stdout w)
          (clock w) (ticks w) (tz_offset w) (inventory w) (report w) (calibrations w).

Definition with_device (w : World) (d : list (list (nat * ascii))) : World :=
  mkWorld (port_present w) (ser w) d (capfile w) (stdin w) (stdout w)
          (clock w) (ticks w) (tz_offset w) (inventory w) (report w) (calibrations w).

Definition with_capfile (w : World) (c : CapFile) : World :=
  mkWorld (port_present w) (ser w) (device w) c (stdin w) (stdout w)
          (clock w) (ticks w) (tz_offset w) (inventory w) (report w) (calibrations w).

Definition with_stdin (w : World) (i : list string) : World :=
  mkWorld (port_present w) (ser w) (device w) (capfile w) i (stdout w)
          (clock w) (ticks w) (tz_offset w) (inventory w) (report w) (calibrations w).

Definition with_stdout (w : World) (o : list string) : World :=
  mkWorld (port_present w) (ser w) (device w) (capfile w) (stdin w) o
          (clock w) (ticks w) (tz_offset w) (inventory w) (report w) (calibrations w).

Definition with_ticks (w : World) (n : nat) : World :=
  mkWorld (port_present w) (ser w) (device w) (capfile w) (stdin w) (stdout w)
          (clock w) n (tz_offset w) (inventory w) (report w) (calibrations w).

Definition with_report (w : World) (r : list DocWrite) : World :=
  mkWorld (port_present w) (ser w) (device w) (capfile w) (stdin w) (stdout w)
          (clock w) (ticks w) (tz_offset w) (inventory w) r (calibrations w).

Definition with_calibrations (w : World) (c : list (string * string * string))
  : World :=
  mkWorld (port_present w) (ser w) (device w) (capfile w) (stdin w) (stdout w)
          (clock w) (ticks w) (tz_offset w) (inventory w) (report w) c.

(** ** The monad of statements *)

Definition M (A : Type) : Type := World -> outcome A * World.

Definition ret {A} (a : A) : M A := fun w => (Ret a, w).

Definition raise {A} (e : exn) : M A := fun w => (Raise e, w).

Definition out_of_fuel {A} : M A := fun w => (OutOfFuel, w).

Definition bind {A B} (m : M A) (k : A -> M B) : M B :=
  fun w =>
    match m w with
    | (Ret a, w') => k a w'
    | (Raise e, w') => (Raise e, w')
    | (OutOfFuel, w') => (OutOfFuel, w')
    end.

Declare Scope py_scope.
Delimit Scope py_scope with py.
Notation "x <- m ;; k" := (bind m (fun x => k))
  (at level 61, m at next level, right associativity) : py_scope.
Notation "m ;; k" := (bind m (fun _ => k))
  (at level 61, right associativity) : py_scope.
Local Open Scope py_scope.

(** A value that may be missing, with the exception its absence raises. *)
Definition lift {A} (e : exn) (o : option A) : M A :=
  match o with Some a => ret a | None => raise e end.

(** [l[i]] *)
Definition getitem {A} (l : list A) (i : nat) : M A :=
  lift IndexError (nth_error l i).

(** [l[i] = v] *)
Fixpoint list_set {A} (l : list A) (i : nat) (v : A) : option (list A) :=
  match l, i with
  | [], _ => None
  | _ :: t, O => Some (v :: t)
  | h :: t, S i' => option_map (cons h) (list_set t i' v)
  end.

Definition setitem {A} (l : list A) (i : nat) (v : A) : M (list A) :=
  lift IndexError (list_set l i v).

(** ** Console and clock *)

Definition print (s : string) : M unit :=
  fun w => (Ret tt, with_stdout w (stdout w ++ [s])).

(** [input(prompt)]: the prompt is shown and the next answer read; the
    end of the answers is [EOFError]. *)
Definition input (prompt : string) : M string :=
  fun w =>
    let w' := with_stdout w (stdout w ++ [prompt]) in
    match stdin w with
    | [] => (Raise EOFError, w')
    | a :: rest => (Ret a, with_stdin w' rest)
    end.

(** [dt.utcnow()] *)
Definition utcnow : M DateTime.datetime :=
  fun w => (Ret (clock w (ticks w)), with_ticks w (S (ticks w))).

(** [dt.today()]: the same clock, read as local time. *)
Definition today : M DateTime.datetime :=
  fun w => (Ret (clock w (ticks w) + tz_offset w)%Z, with_ticks w (S (ticks w))).

(* ================================================================== *)
(** * Transport channel *)
(* ================================================================== *)

Definition is_ascii (s : string) : bool :=
  forallb (fun c => (Py.code c <? 128)%N) (list_ascii_of_string s).

(** [b.decode('ascii')] and [s.encode('ascii')] *)
Definition decode_ascii (b : string) : M string :=
  if is_ascii b then ret b else raise UnicodeError.

Definition encode_ascii (s : string) : M string :=
  if is_ascii s then ret s else raise UnicodeError.

(** The read timeout of [serial.Serial(port, baudrate, timeout=5)], in
    milliseconds. *)
Definition timeout_ms : nat := 5000.

(** [ser.read(n)] on the state of the port: up to [n] bytes, waiting at
    most [budget] milliseconds in all.  Returns the bytes read, the
    buffer and the arrivals left. *)
Fixpoint read_bytes (n budget : nat) (buf : string)
         (inc : list (nat * ascii)) : string * string * list (nat * ascii) :=
  match n with
  | O => (EmptyString, buf, inc)
  | S n' =>
      match buf with
      | String c buf' =>
          let '(r, b, i) := read_bytes n' budget buf' inc in
          (String c r, b, i)
      | EmptyString =>
          match inc with
          | [] => (EmptyString, EmptyString, [])
          | (pause, c) :: rest =>
              if (pause <? budget)%nat then
                let '(r, b, i) := read_bytes n' (budget - pause) "" rest in
                (String c r, b, i)
              else (EmptyString, EmptyString, (pause - budget, c) :: rest)
          end
      end
  end.

Definition ser_read (n : nat) : M string :=
  fun w =>
    let s := ser w in
    if is_open s then
      let '(r, b, i) := read_bytes n (read_timeout s) (in_buffer s) (incoming s) in
      (Ret r, with_ser w (mkSerial true (read_timeout s) b i (tx s)
                                   (reads s ++ [r])))
    else (Raise SerialException, w).

(** [ser.in_waiting] *)
Definition in_waiting : M nat :=
  fun w =>
    if is_open (ser w) then (Ret (String.length (in_buffer (ser w))), w)
    else (Raise SerialException, w).

(** [ser.reset_input_buffer()] *)
Definition reset_input_buffer : M unit :=
  fun w =>
    let s := ser w in
    if is_open s then
      (Ret tt, with_ser w (mkSerial true (read_timeout s) "" (incoming s)
                                    (tx s) (reads s)))
    else (Raise SerialException, w).

(** [ser.write(data)]: the peer's reply to this write is queued behind
    what it still has to deliver. *)
Definition ser_write (data : string) : M unit :=
  fun w =>
    let s := ser w in
    if is_open s then
      (Ret tt,
       with_device
         (with_ser w (mkSerial true (read_timeout s) (in_buffer s)
                               (incoming s ++ hd [] (device w))
                               (tx s ++ [data]) (reads s)))
         (tl (device w)))
    else (Raise SerialException, w).

(** [ser.close()] *)
Definition ser_close : M unit :=
  fun w =>
    let s := ser w in
    (Ret tt, with_ser w (mkSerial false (read_timeout s) (in_buffer s)
                                  (incoming s) (tx s) (reads s))).

(** [capfile.write(s)] *)
Definition capfile_write (s : string) : M unit :=
  fun w =>
    let c := capfile w in
    if cap_closed c then (Raise ValueError, w)
    else (Ret tt, with_capfile w (mkCapFile (cap_name c)
                                            (cap_contents c ++ s) false)).

(** [capfile.close()] *)
Definition capfile_close : M unit :=
  fun w =>
    let c := capfile w in
    (Ret tt, with_capfile w (mkCapFile (cap_name c) (cap_contents c) true)).

(** [open(name, 'w')] *)
Definition capfile_open (name : string) : M unit :=
  fun w => (Ret tt, with_capfile w (mkCapFile name "" false)).

(** The [while True] loop of [ser_coms]: one byte is read at a time and
    the loop ends at the first read that leaves [cap] unchanged. *)
Fixpoint ser_coms_loop (fuel : nat) (cap : string) : M string :=
  match fuel with
  | O => out_of_fuel
  | S fuel' =>
      let prev := cap in
      b <- ser_read 1 ;;
      s <- decode_ascii b ;;
      let cap := cap ++ s in
      if String.eqb prev cap then
        capfile_write cap ;;
        ret cap
      else ser_coms_loop fuel' cap
  end.

(** The bytes the port can still deliver. *)
Definition pending (w : World) : nat :=
  String.length (in_buffer (ser w)) + List.length (incoming (ser w)).

(** [ser_coms(ser, capfile, cmd)].  Every pass of the loop but the last
    consumes a pending byte, so the number of pending bytes bounds the
    passes. *)
Definition ser_coms (cmd : string) : M string :=
  reset_input_buffer ;;
  data <- encode_ascii (cmd ++ Py.CRLF) ;;
  ser_write data ;;
  n <- in_waiting ;;
  b <- ser_read n ;;
  cap <- decode_ascii b ;;
  fun w => ser_coms_loop (S (pending w)) cap w.

(** A reply delivered in chunks: the first byte of a chunk comes after
    the chunk's pause, the others follow at once. *)
Definition chunk (pause : nat) (s : string) : list (nat * ascii) :=
  match list_ascii_of_string s with
  | [] => []
  | c :: rest => (pause, c) :: map (fun x => (O, x)) rest
  end.

Definition chunks (l : list (nat * string)) : list (nat * ascii) :=
  flat_map (fun p => chunk (fst p) (snd p)) l.

(** [open_port(port, baudrate)]: [None] when the port cannot be opened. *)
Definition open_port (port : string) (baudrate : N) : M bool :=
  print ("Connecting to " ++ port ++ " at " ++ Py.str_of_N baudrate
         ++ " baud...") ;;
  fun w =>
    if port_present w then
      (print ("Connected to " ++ port ++ ".") ;; ret true)
        (with_ser w (mkSerial true timeout_ms (in_buffer (ser w))
                              (incoming (ser w)) (tx (ser w)) (reads (ser w))))
    else (Ret false, w).

(* ================================================================== *)
(** * Device session *)
(* ================================================================== *)

(** [re.search('id\s=\s(\d{2})', s)]: the two digits of the leftmost
    match. *)
Fixpoint search_id (s : string) : option string :=
  match s with
  | EmptyString => None
  | String c rest =>
      match s with
      | String "i" (String "d" (String w1 (String "="
          (String w2 (String d1 (String d2 _)))))) =>
          if (Py.isspace w1 && Py.isspace w2 && Py.isdigit d1 && Py.isdigit d2)%bool
          then Some (String d1 (String d2 ""))
          else search_id rest
      | _ => search_id rest
      end
  end.

Fixpoint get_remote_id (fuel : nat) : M (option string) :=
  match fuel with
  | O => out_of_fuel
  | S fuel' =>
      id_query <- ser_coms "id?" ;;
      match search_id id_query with
      | None =>
          print "Unable to get id from remote instrument." ;;
          a <- input "Would you like to try again? [y]/n " ;;
          if String.eqb a "n" then ret None else get_remote_id fuel'
      | Some id => ret (Some id)
      end
  end.

Fixpoint reset_remote_id (fuel : nat) (desired_id : string)
  : M (option string) :=
  match fuel with
  | O => out_of_fuel
  | S fuel' =>
      response <- ser_coms ("*id=" ++ desired_id) ;;
      if Py.contains "FAILED" response then
        print "Unable to communicate with remote instrument." ;;
        a <- input "Would you like to try again? [y]/n " ;;
        if String.eqb a "n" then ret None
        else reset_remote_id fuel' desired_id
      else if Py.contains ("id = " ++ desired_id) response then
        ret (Some desired_id)
      else reset_remote_id fuel' desired_id
  end.

(** [split_csv(csv)] *)
Definition split_csv (csv : string) : M (list string) :=
  line <- getitem (Py.splitlines csv) 1 ;;
  ret (map Py.strip (Py.split_on "," line)).

(** [date_from_ds(ds)] *)
Definition date_from_ds (ds : string) : M DateTime.datetime :=
  let ds_date := Py.join " " (Py.slice 6 10 (Py.split ds)) in
  lift ValueError (DateTime.strptime_ds ds_date).

(** [tidy_up(ser, capfile)] *)
Definition tidy_up : M unit :=
  ser_coms "pwroff" ;;
  capfile_close ;;
  ser_close.

(* ================================================================== *)
(** * The test procedure *)
(* ================================================================== *)

(** Module-level variable of the script. *)
Definition desired_id : string := "01".

Definition partnumber_dict : list (string * string) :=
  [("G", "00007"); ("H", "00008"); ("Q", "00017"); ("R", "00018")].

(** [d[k]] on a dictionary built from a list of pairs: the last pair
    with the key counts. *)
Fixpoint dict_find (d : list (string * string)) (k : string) : option string :=
  match d with
  | [] => None
  | (k', v) :: rest =>
      match dict_find rest k with
      | Some v' => Some v'
      | None => if String.eqb k' k then Some v else None
      end
  end.

Definition dict_get (d : list (string * string)) (k : string) : M string :=
  lift KeyError (dict_find d k).

(** [dict_from_csv(csvfilename)]: the rows of the inventory file. *)
Definition dict_from_csv : M (list (string * string)) :=
  fun w => (Ret (inventory w), w).

(** Modelled from the spec: [cal_ctdmo.generate_csv], the calibration
    converter, is not part of the sources; given the raw coefficient
    text, the series and the form number it produces a calibration
    file, which is recorded here as the call it received. *)
Definition generate_csv (cc_xml seriesletter formnumber : string) : M unit :=
  fun w => (Ret tt, with_calibrations
                      w (calibrations w ++ [(cc_xml, seriesletter, formnumber)])).

(** A write into the results document. *)
Definition doc_write (d : DocWrite) : M unit :=
  fun w => (Ret tt, with_report w (report w ++ [d])).

(** The two local lists of [ctdmo_qct_test]. *)
Record Steps : Type := mkSteps {
  step_results_p : list bool;
  testdata : list (option string)
}.

(** [step_results_p[i] = True; testdata[i] = text] *)
Definition mark_passed (st : Steps) (i : nat) (text : string) : M Steps :=
  p <- setitem (step_results_p st) i true ;;
  t <- setitem (testdata st) i (Some text) ;;
  ret (mkSteps p t).

(** [testdata[i] = text] *)
Definition set_testdata (st : Steps) (i : nat) (text : string) : M Steps :=
  t <- setitem (testdata st) i (Some text) ;;
  ret (mkSteps (step_results_p st) t).

(** How one pass of a [while not this_step_complete] loop ends: with
    the flag still false (by [continue] or at the end of the body), or
    with the flag set. *)
Inductive pass_end : Type := Again | Complete.

(** How a check inside such a loop ends: the body goes on with the next
    statement, or [continue] starts the next pass. *)
Inductive flow : Type := Next | Continue.

(** The [while not this_step_complete] loop around a pass. *)
Fixpoint repeat_until_complete (fuel : nat)
         (pass : Steps -> M (pass_end * Steps)) (st : Steps) : M Steps :=
  match fuel with
  | O => out_of_fuel
  | S fuel' =>
      r <- pass st ;;
      match r with
      | (Complete, st) => ret st
      | (Again, st) => repeat_until_complete fuel' pass st
      end
  end.

(** ** The operator's adjudication

    Every check of the procedure has the same shape:
<<
    if <violation>:
        print(...)
        response = input("Does this bother you, %s? [y]/n " % username.split()[0])
        if response != "n":
            response = input("Would you like to try again? [y]/n ")
            if response == "n":  <declined>
            else:                <retry>
        else: <accepted>
    else: <accepted>
>>
    where the two [accepted] branches have the same text. *)

Definition ask_bother (username : string) : M string :=
  name <- getitem (Py.split username) 0 ;;
  input ("Does this bother you, " ++ name ++ "? [y]/n ").

Definition ask_again : M string :=
  input "Would you like to try again? [y]/n ".

Definition ask_operator {A} (username : string) (announce : M unit)
           (accepted declined retry : M A) : M A :=
  announce ;;
  response <- ask_bother username ;;
  if negb (String.eqb response "n") then
    response <- ask_again ;;
    if String.eqb response "n" then declined else retry
  else accepted.

Definition adjudicate {A} (violation : bool) (username : string)
           (announce : M unit) (accepted declined retry : M A) : M A :=
  if violation then ask_operator username announce accepted declined retry
  else accepted.

(** ** Setup and the identify/reassign handshake (8.3.5, 8.3.6) *)

(** Lines 213-222: the port, the capture file and the wake-up.  [false]
    is the failure to open the port. *)
Definition setup (port formnumber : string) : M bool :=
  ok <- open_port port 9600 ;;
  if negb ok then ret false else
  capfile_open ("3305-00101-" ++ formnumber ++ "-A.txt") ;;
  print "Waking the IMM..." ;;
  ser_coms "pwron" ;;
  ret true.

(** [while remote_id != desired_id]: [None] is the early return. *)
Fixpoint reassign_loop (fuel : nat) (remote_id : string) : M (option string) :=
  if negb (String.eqb remote_id desired_id) then
    match fuel with
    | O => out_of_fuel
    | S fuel' =>
        print "Resetting remote id..." ;;
        r <- reset_remote_id fuel desired_id ;;
        match r with
        | None => ret None
        | Some id =>
            print ("Remote id: " ++ id) ;;
            reassign_loop fuel' id
        end
    end
  else ret (Some remote_id).

(** Lines 225-239, up to the two calls of [tidy_up]: the id under which
    the instrument answers, or the status message of the early return
    the operator asked for. *)
Definition handshake (fuel : nat) : M (string + string) :=
  print "Establishing communication with the remote device..." ;;
  r <- get_remote_id fuel ;;
  match r with
  | None => ret (inl "Attention! Test cancelled by user.")
  | Some remote_id =>
      print ("Remote id: " ++ remote_id) ;;
      r <- reassign_loop fuel remote_id ;;
      match r with
      | None => ret (inl "Error! Test cancelled by user.")
      | Some remote_id => ret (inr remote_id)
      end
  end.

(** ** 8.3.7: serial number, firmware, series *)

(** The prompt loop of the [except KeyError] branch. *)
Fixpoint ask_series (fuel : nat) (username : string) : M string :=
  match fuel with
  | O => out_of_fuel
  | S fuel' =>
      a <- input "Enter the instrument Series (G, H, Q or R): " ;;
      let seriesletter := Py.upper a in
      if Py.contains seriesletter "GHQR" then ret seriesletter
      else
        name <- getitem (Py.split username) 0 ;;
        print ("Whoa! That's not a valid series letter,  " ++ name ++ ".") ;;
        ask_series fuel' username
  end.

(** Lines 243-250: the two lists of ten entries; the first step is
    already complete. *)
Definition initial_steps : M Steps :=
  let step_results_p := Py.replicate 10 false in
  let testdata := Py.replicate 10 (@None string) in
  mark_passed (mkSteps step_results_p testdata) 0
              "Established communication with instrument.".

(** Lines 261-283: serial number, firmware and series. *)
Definition identify_instrument (fuel : nat) (username remote_id : string)
           (st : Steps) : M (string * string * Steps) :=
  ser_coms ("#" ++ remote_id ++ "outputformat=1") ;;
  r <- ser_coms ("#" ++ remote_id ++ "ds") ;;
  let ds := Py.split r in
  sn <- getitem ds 5 ;;
  let serialnumber := "37-" ++ sn in
  firmware <- getitem ds 2 ;;
  print ("Serial number: " ++ serialnumber) ;;
  print ("Firmware version: " ++ firmware) ;;
  st <- mark_passed st 1 "Serial number confirmed." ;;
  st <- mark_passed st 2 ("Firmware " ++ firmware ++ " confirmed.") ;;
  inv_dict <- dict_from_csv ;;
  seriesletter <- match dict_find inv_dict serialnumber with
                  | Some l => ret l
                  | None => ask_series fuel username
                  end ;;
  print ("Class/Series: CTDMO-" ++ seriesletter) ;;
  pn <- dict_get partnumber_dict seriesletter ;;
  print ("Part number: 1336-00001-" ++ pn) ;;
  ret (serialnumber, seriesletter, st).

(** Lines 289-313: the header of the results document. *)
Definition fill_header (username formnumber serialnumber seriesletter : string)
  : M unit :=
  pn <- dict_get partnumber_dict seriesletter ;;
  doc_write (Fill "partnumber" pn) ;;
  doc_write (Fill "serialnumber" serialnumber) ;;
  doc_write (Fill "seriesletter" seriesletter) ;;
  doc_write (Fill "formnumber" formnumber) ;;
  doc_write (Fill "username" username) ;;
  t <- today ;;
  doc_write (Fill "testdate" (DateTime.strftime_iso t)).

(** Lines 319-325: the calibration coefficients. *)
Definition export_calibration (remote_id seriesletter formnumber : string)
  : M unit :=
  print "Retrieving calibration information..." ;;
  cc_repl <- ser_coms ("#" ++ remote_id ++ "getcc") ;;
  print "Exporting calibration to CSV..." ;;
  let cc_xml := Py.str_slice 8 2 cc_repl in
  generate_csv cc_xml seriesletter formnumber.

(** ** 8.3.9 and 8.3.10: the instrument clock *)

(** [0 <= d.seconds <= 15] *)
Definition clock_tolerance (d : DateTime.timedelta) : bool :=
  ((0 <=? DateTime.seconds d) && (DateTime.seconds d <=? 15))%Z.

(** Lines 344-354: was the clock set to noon of the day before. *)
Definition clock_set_decide (username : string)
           (rollback_instr rollback_target : DateTime.datetime) (st : Steps)
  : M (flow * Steps) :=
  adjudicate
    (negb (clock_tolerance (DateTime.diff rollback_instr rollback_target)))
    username
    (print ("The instrument time " ++ DateTime.strftime_ds rollback_instr
            ++ " is not set to noon yesterday."))
    (ret (Next, st))
    (st <- set_testdata st 3 "The instrument clock was not set successfully." ;;
     ret (Next, st))
    (ret (Continue, st)).

(** Lines 330-354 *)
Definition clock_set_check (username remote_id : string) (st : Steps)
  : M (flow * Steps) :=
  print "Testing instrument clock..." ;;
  st <- set_testdata st 3 "Test not completed" ;;
  now <- utcnow ;;
  let rollback_target :=
    DateTime.replace_noon (now - DateTime.of_days 1)%Z in
  ser_coms ("#" ++ remote_id ++ "datetime="
            ++ DateTime.strftime_cmd rollback_target) ;;
  r <- ser_coms ("#" ++ remote_id ++ "ds") ;;
  rollback_instr <- date_from_ds r ;;
  clock_set_decide username rollback_instr rollback_target st.

(** Lines 374-379 *)
Definition note_clock_not_reset (st : Steps) : M Steps :=
  old <- getitem (testdata st) 3 ;;
  match old with
  | Some (String c t) =>
      set_testdata st 3 (String c t ++ Py.CRLF
                         ++ "The instrument clock was not reset successfully.")
  | _ => set_testdata st 3 "The instrument clock was not reset successfully."
  end.

(** Lines 365-388: was the clock reset to the current time. *)
Definition clock_reset_decide (username : string)
           (now currenttime_instr : DateTime.datetime) (st : Steps)
  : M (pass_end * Steps) :=
  adjudicate
    (negb (clock_tolerance (DateTime.diff now currenttime_instr)))
    username
    (now <- utcnow ;;
     print ("The instrument time " ++ DateTime.strftime_ds currenttime_instr
            ++ " is not set to the current time "
            ++ DateTime.strftime_ds now ++ "."))
    (st <- mark_passed st 3 "Instrument clock set successfully." ;;
     ret (Complete, st))
    (st <- note_clock_not_reset st ;;
     ret (Complete, st))
    (ret (Again, st)).

(** Lines 358-388 *)
Definition clock_reset_check (username remote_id : string) (st : Steps)
  : M (pass_end * Steps) :=
  now <- utcnow ;;
  ser_coms ("#" ++ remote_id ++ "datetime=" ++ DateTime.strftime_cmd now) ;;
  r <- ser_coms ("#" ++ remote_id ++ "ds") ;;
  currenttime_instr <- date_from_ds r ;;
  now <- utcnow ;;
  clock_reset_decide username now currenttime_instr st.

(** One pass of the loop of lines 329-388. *)
Definition clock_pass (username remote_id : string) (st : Steps)
  : M (pass_end * Steps) :=
  r <- clock_set_check username remote_id st ;;
  match r with
  | (Continue, st) => ret (Again, st)
  | (Next, st) => clock_reset_check username remote_id st
  end.

(** ** 8.3.11 and 8.3.12: the sample interval

    The two loops have the same text but for the step index, the
    banner, the interval asked for and, in 8.3.12 only, the statement
    [if step_results_p[5]: step_results_p[5] = False]. *)

(** Lines 400-423 and 435-458: the reported interval is token 29 of the
    status reply. *)
Definition interval_decide (i : nat) (desired_sample_interval : string)
           (username : string) (ds : list string) (st : Steps)
  : M (pass_end * Steps) :=
  sample_interval <- getitem ds 29 ;;
  print (Py.join " " (Py.slice 26 31 ds)) ;;
  adjudicate
    (negb (String.eqb sample_interval desired_sample_interval))
    username
    (print "The sample interval was not set to the correct value.")
    (st <- mark_passed st i
             ("Sampling configuration changed successfully." ++ Py.CRLF
              ++ Py.join " " (Py.slice 26 31 ds)) ;;
     ret (Complete, st))
    (st <- set_testdata st i
             ("The sample interval was not set successfully." ++ Py.CRLF) ;;
     ret (Complete, st))
    (ret (Again, st)).

Definition interval_pass (i : nat) (banner desired_sample_interval : string)
           (clear : bool) (username remote_id : string) (st : Steps)
  : M (pass_end * Steps) :=
  print banner ;;
  p <- (if clear then
          b <- getitem (step_results_p st) i ;;
          if b : bool then setitem (step_results_p st) i false
          else ret (step_results_p st)
        else ret (step_results_p st)) ;;
  st <- set_testdata (mkSteps p (testdata st)) i "Test not completed." ;;
  ser_coms ("#" ++ remote_id ++ "sampleinterval=" ++ desired_sample_interval) ;;
  r <- ser_coms ("#" ++ remote_id ++ "ds") ;;
  interval_decide i desired_sample_interval username (Py.split r) st.

(** Lines 393-423 *)
Definition interval_pass_120 : string -> string -> Steps -> M (pass_end * Steps) :=
  interval_pass 4 "Testing configuration..." "120" false.

(** Lines 427-458 *)
Definition interval_pass_10 : string -> string -> Steps -> M (pass_end * Steps) :=
  interval_pass 5 "Configuring instrument..." "10" true.

(** ** 8.3.13 to 8.3.16: the two samples *)

(** [float(l[i])] *)
Definition float_at (l : list string) (i : nat) : M PyFloat.float :=
  x <- getitem l i ;;
  lift ValueError (PyFloat.parse x).

(** Lines 488-493: the condition of the plausibility check, with the
    short-circuit evaluation of [or]. *)
Definition out_of_bounds (sample_air : list string) : M bool :=
  t <- float_at sample_air 1 ;;
  if PyFloat.ltb t (PyFloat.of_Z 10) then ret true else
  t <- float_at sample_air 1 ;;
  if PyFloat.gtb t (PyFloat.of_Z 30) then ret true else
  c <- float_at sample_air 2 ;;
  if PyFloat.ltb c (PyFloat.of_Z (-1)) then ret true else
  c <- float_at sample_air 2 ;;
  if PyFloat.gtb c (PyFloat.of_Z 1) then ret true else
  p <- float_at sample_air 3 ;;
  if PyFloat.ltb p (PyFloat.of_Z (-2)) then ret true else
  p <- float_at sample_air 3 ;;
  ret (PyFloat.gtb p (PyFloat.of_Z 2)).

(** Line 523: [float(sample_bucket[3]) <= float(sample_air[3])] *)
Definition pressure_not_greater (sample_bucket sample_air : list string)
  : M bool :=
  b <- float_at sample_bucket 3 ;;
  a <- float_at sample_air 3 ;;
  ret (PyFloat.leb b a).

(** Line 545: [float(sample_bucket[1]) - float(sample_air[1]) < 1.0] *)
Definition temperature_not_warmer (sample_bucket sample_air : list string)
  : M bool :=
  b <- float_at sample_bucket 1 ;;
  a <- float_at sample_air 1 ;;
  ret (PyFloat.ltb (PyFloat.sub b a) (PyFloat.of_Z 1)).

(** Lines 464-465: [step_results_p[6:8] = [False] * 3] and
    [testdata[6:8] = ["Test not completed."] * 3]. *)
Definition reset_sample_slots (st : Steps) : Steps :=
  mkSteps
    (Py.set_slice 6 8 (Py.replicate 3 false) (step_results_p st))
    (Py.set_slice 6 8 (Py.replicate 3 (Some "Test not completed."))
                  (testdata st)).

(** Lines 463-466: the slots are reset and the air sample is taken. *)
Definition acquire_air (remote_id : string) (st : Steps)
  : M (list string * Steps) :=
  print "Acquiring sample..." ;;
  let st := reset_sample_slots st in
  r <- ser_coms ("#" ++ remote_id ++ "ts") ;;
  sample_air <- split_csv r ;;
  ret (sample_air, st).

(** Lines 468-485: the date stamp of the air sample. *)
Definition date_stamp_check (username : string) (sample_air : list string)
           (st : Steps) : M (flow * Steps) :=
  x <- getitem sample_air 4 ;;
  d <- lift ValueError (DateTime.strptime_date x) ;;
  now <- utcnow ;;
  adjudicate
    (negb (DateTime.date d =? DateTime.date now)%Z)
    username
    (print ("The sample date of " ++ Py.join " " (Py.slice 4 6 sample_air)
            ++ " does not appear to be correct."))
    (st <- mark_passed st 6 "Correct date stamp confirmed." ;;
     ret (Next, st))
    (st <- set_testdata st 6
             ("The sample does not contain a valid date stamp." ++ Py.CRLF
              ++ Py.join ", " sample_air) ;;
     ret (Next, st))
    (ret (Continue, st)).

(** Lines 494-512: what follows the condition of the plausibility
    check. *)
Definition plausibility_verdict (username : string)
           (sample_air : list string) (st : Steps) (violation : bool)
  : M (flow * Steps) :=
  adjudicate violation username
    (print ("The sample data don't seem quite right." ++ Py.CRLF
            ++ Py.join " " sample_air))
    (st <- mark_passed st 7
             ("Sample values seem reasonable." ++ Py.CRLF
              ++ Py.join ", " sample_air) ;;
     ret (Next, st))
    (st <- set_testdata st 7
             ("The sample data are invalid." ++ Py.CRLF
              ++ Py.join ", " sample_air) ;;
     ret (Next, st))
    (ret (Continue, st)).

(** Lines 487-512: the values of the air sample. *)
Definition plausibility_check (username : string) (sample_air : list string)
           (st : Steps) : M (flow * Steps) :=
  bad <- out_of_bounds sample_air ;;
  plausibility_verdict username sample_air st bad.

(** Lines 516-519: the instrument goes into the water and the second
    sample is taken. *)
Definition acquire_bucket (remote_id : string) : M (list string) :=
  print "Place the instrument in a container of warm water now." ;;
  input "Press ENTER to continue..." ;;
  print "Acquiring sample..." ;;
  r <- ser_coms ("#" ++ remote_id ++ "ts") ;;
  split_csv r.

(** Lines 524-542: what follows the condition of the pressure check. *)
Definition pressure_verdict (username : string)
           (sample_bucket sample_air : list string) (st : Steps)
           (violation : bool) : M (flow * Steps) :=
  adjudicate violation username
    (pb <- getitem sample_bucket 3 ;;
     pa <- getitem sample_air 3 ;;
     print ("The bucket pressure of " ++ pb
            ++ " is not greater than the air pressure of " ++ pa
            ++ " as expected!"))
    (st <- mark_passed st 8 "Pressure sensor correctly records changes." ;;
     ret (Next, st))
    (st <- set_testdata st 8
             ("The pressure did not increase as expected." ++ Py.CRLF
              ++ Py.join ", " sample_bucket) ;;
     ret (Next, st))
    (print "Remove the instrument from the water now." ;;
     input "Press ENTER to continue..." ;;
     ret (Continue, st)).

(** Lines 521-542: did the pressure rise. *)
Definition pressure_check (username : string)
           (sample_bucket sample_air : list string) (st : Steps)
  : M (flow * Steps) :=
  bad <- pressure_not_greater sample_bucket sample_air ;;
  pressure_verdict username sample_bucket sample_air st bad.

(** Lines 546-564: what follows the condition of the temperature
    check. *)
Definition temperature_verdict (username : string)
           (sample_bucket sample_air : list string) (st : Steps)
           (violation : bool) : M (pass_end * Steps) :=
  adjudicate violation username
    (tb <- getitem sample_bucket 1 ;;
     ta <- getitem sample_air 1 ;;
     print ("The bucket temperature of " ++ tb
            ++ "C is not warmer than the air temperature of " ++ ta
            ++ "C as expected!"))
    (st <- mark_passed st 9 "Temp data changes as expected." ;;
     ret (Complete, st))
    (st <- set_testdata st 9
             ("The temperature did not increase as expected." ++ Py.CRLF
              ++ Py.join ", " sample_bucket) ;;
     ret (Complete, st))
    (ret (Again, st)).

(** Lines 544-564: did the temperature rise. *)
Definition temperature_check (username : string)
           (sample_bucket sample_air : list string) (st : Steps)
  : M (pass_end * Steps) :=
  bad <- temperature_not_warmer sample_bucket sample_air ;;
  temperature_verdict username sample_bucket sample_air st bad.

(** One pass of the loop of lines 462-564. *)
Definition sample_pass (username remote_id : string) (st : Steps)
  : M (pass_end * Steps) :=
  r <- acquire_air remote_id st ;;
  let (sample_air, st) := r in
  r <- date_stamp_check username sample_air st ;;
  match r with
  | (Continue, st) => ret (Again, st)
  | (Next, st) =>
      r <- plausibility_check username sample_air st ;;
      match r with
      | (Continue, st) => ret (Again, st)
      | (Next, st) =>
          sample_bucket <- acquire_bucket remote_id ;;
          r <- pressure_check username sample_bucket sample_air st ;;
          match r with
          | (Continue, st) => ret (Again, st)
          | (Next, st) =>
              temperature_check username sample_bucket sample_air st
          end
      end
  end.

(** ** The results document and the procedure as a whole *)

(** Lines 568-578: the Pass and Fail columns, rows 2 to 11. *)
Fixpoint fill_rows (n i : nat) (st : Steps) : M unit :=
  match n with
  | O => ret tt
  | S n' =>
      p <- getitem (step_results_p st) i ;;
      t <- getitem (testdata st) i ;;
      doc_write (if p : bool then StepRow (i + 2) t "X" ""
                 else StepRow (i + 2) t "" "X") ;;
      fill_rows n' (S i) st
  end.

(** Lines 588-590: all names but the last become initials. *)
Definition author_of (username : string) : string :=
  let author_inits := Py.split username in
  let n := List.length author_inits - 1 in
  let initial (s : string) :=
    match s with
    | String c _ => String c "."
    | EmptyString => "."
    end in
  Py.join " " (Py.set_slice 0 n (map initial (firstn n author_inits))
                            author_inits).

(** Lines 566-593: the results document is completed and saved. *)
Definition wrap_up (username formnumber serialnumber seriesletter : string)
           (st : Steps) : M unit :=
  fill_rows 10 0 st ;;
  doc_write (SessionLog ("Session log file: 3305-00101-" ++ formnumber
                         ++ "-A.txt")) ;;
  doc_write (Title ("SN_" ++ serialnumber ++ "_QCT_Results_CTDMO-"
                    ++ seriesletter)) ;;
  doc_write (Author (author_of username)) ;;
  doc_write (Save ("3305-00101-" ++ formnumber ++ ".docx")).

(** Lines 241-564: the steps of the procedure once the instrument
    answers under the desired id. *)
Definition run_steps (fuel : nat) (username formnumber remote_id : string)
  : M (string * string * Steps) :=
  st <- initial_steps ;;
  r <- identify_instrument fuel username remote_id st ;;
  let '(serialnumber, seriesletter, st) := r in
  fill_header username formnumber serialnumber seriesletter ;;
  export_calibration remote_id seriesletter formnumber ;;
  st <- repeat_until_complete fuel (clock_pass username remote_id) st ;;
  st <- repeat_until_complete fuel (interval_pass_120 username remote_id) st ;;
  st <- repeat_until_complete fuel (interval_pass_10 username remote_id) st ;;
  st <- repeat_until_complete fuel (sample_pass username remote_id) st ;;
  ret (serialnumber, seriesletter, st).

(** [ctdmo_qct_test(port, username, formnumber)], returning with the
    status message the two lists as they are when the function returns
    ([None] when it returns before they exist). *)
Definition ctdmo_qct_run (fuel : nat) (port username formnumber : string)
  : M (string * option Steps) :=
  ok <- setup port formnumber ;;
  if negb ok then ret ("Error! Unable to open port!", None) else
  r <- handshake fuel ;;
  match r with
  | inl cancelled =>
      tidy_up ;;
      ret (cancelled, None)
  | inr remote_id =>
      r <- run_steps fuel username formnumber remote_id ;;
      let '(serialnumber, seriesletter, st) := r in
      wrap_up username formnumber serialnumber seriesletter st ;;
      tidy_up ;;
      ret ("Test complete.", Some st)
  end.

Definition ctdmo_qct_test (fuel : nat) (port username formnumber : string)
  : M string :=
  r <- ctdmo_qct_run fuel port username formnumber ;;
  ret (fst r).

(* ================================================================== *)
(** * A scripted run against a mock instrument *)
(* ================================================================== *)

Module Mock.

Definition status (date interval : string) : string :=
  "SBE37-IM V 2.3b  SERIAL NO. 12345    " ++ date ++ Py.CRLF ++
  "not logging: received stop command" ++ Py.CRLF ++
  "samplenumber = 0, free = 559240" ++ Py.CRLF ++
  "do not transmit sample number" ++ Py.CRLF ++
  "sample interval = " ++ interval ++ " seconds" ++ Py.CRLF.

Definition sample (t c p d : string) : string :=
  "#01ts" ++ Py.CRLF ++ " 12345,  " ++ t ++ ", " ++ c ++ ",  " ++ p
  ++ ", " ++ d ++ ", 12:00:40" ++ Py.CRLF.

(** A reply that arrives in one piece after 200 ms. *)
Definition reply (s : string) : list (nat * ascii) := chunks [(200, s)].

(** 22 June 2020, 12:00:00 *)
Definition noon : Z := 63728424000000000.

(** The clock advances by ten seconds from one reading to the next,
    up to the twelfth. *)
Definition clock (n : nat) : Z :=
  nth n (map (fun k => noon + k * 10000000 + 250000)
             [0; 1; 2; 3; 4; 5; 6; 7; 8; 9; 10; 11])%Z
      (noon + 120250000)%Z.

Definition closed_port : Serial := mkSerial false 0 "" [] [] [].

Definition world (dev : list (list (nat * ascii))) (answers : list string)
  : World :=
  mkWorld true closed_port dev (mkCapFile "" "" true) answers []
          clock 0 0 [("37-12345", "G")] [] [].

(** The world once the port is open and the capture file created. *)
Definition awake (dev : list (list (nat * ascii))) (answers : list string)
  : World :=
  mkWorld true (mkSerial true timeout_ms "" [] [] []) dev
          (mkCapFile "3305-00101-00123-A.txt" "" false) answers []
          clock 0 0 [("37-12345", "G")] [] [].

(** The two lists as they are when the clock checks begin. *)
Definition steps_before_clock : Steps :=
  mkSteps
    [true; true; true; false; false; false; false; false; false; false]
    [Some "Established communication with instrument.";
     Some "Serial number confirmed."; Some "Firmware 2.3b confirmed.";
     Some "Test not completed"; None; None; None; None; None; None].

(** The two lists as they are in the first pass of the sample loop,
    once the air sample has passed its two checks. *)
Definition steps_before_bucket : Steps :=
  mkSteps
    [true; true; true; true; true; true; true; true; false; false; false]
    [Some "Established communication with instrument.";
     Some "Serial number confirmed."; Some "Firmware 2.3b confirmed.";
     Some "Instrument clock set successfully.";
     Some "Sampling configuration changed successfully.";
     Some "Sampling configuration changed successfully.";
     Some "Correct date stamp confirmed.";
     Some "Sample values seem reasonable.";
     Some "Test not completed."; None; None].

(** The fields of a sample. *)
Definition fields (t c p : string) : list string :=
  ["12345"; t; c; p; "22 Jun 2020"; "12:00:40"].

(** The replies up to the first sample: wake-up, id, output format,
    status, calibration, then the clock and the two interval steps. *)
Definition prelude : list (list (nat * ascii)) :=
  [reply "IMM>"; reply ("id = 01" ++ Py.CRLF);
   reply "ok"; reply (status "22 Jun 2020  11:59:50" "30");
   reply "<CalibrationCoefficients/>";
   reply "ok"; reply (status "21 Jun 2020  12:00:05" "30");
   reply "ok"; reply (status "22 Jun 2020  12:00:20" "30");
   reply "ok"; reply (status "22 Jun 2020  12:00:25" "120");
   reply "ok"; reply (status "22 Jun 2020  12:00:30" "10")].

(** Every check passes at once. *)
Definition smooth_run : World :=
  world (prelude ++
         [reply (sample "20.0" "0.0" "1.0" "22 Jun 2020");
          reply (sample "22.5" "3.1" "1.5" "22 Jun 2020");
          reply "bye"])
        [""].

(** The water is not warm at first: the pressure rises but the
    temperature does not, and the operator asks for another pass; in
    that pass neither rises and the operator declines to retry. *)
Definition cold_water_run : World :=
  world (prelude ++
         [reply (sample "20.0" "0.0" "1.0" "22 Jun 2020");
          reply (sample "20.2" "3.1" "1.5" "22 Jun 2020");
          reply (sample "20.0" "0.0" "1.0" "22 Jun 2020");
          reply (sample "20.2" "3.1" "1.0" "22 Jun 2020");
          reply "bye"])
        [""; "y"; "y"; ""; "y"; "n"; "y"; "n"].

(** The instrument does not give its id and the operator declines to
    try again. *)
Definition unanswered : World :=
  world [reply "IMM>"; reply "?"; reply "zz"] ["n"].

(** The instrument answers under id 07, the reassignment fails and the
    operator declines to try again. *)
Definition not_reassigned : World :=
  world [reply "IMM>"; reply ("id = 07" ++ Py.CRLF);
         reply ("FAILED" ++ Py.CRLF); reply "zz"]
        ["n"].

End Mock.

(* ================================================================== *)
(** * Vocabulary of the statements *)
(* ================================================================== *)

(** Lengths of the two lists of a [Steps]. *)
Definition slots (st : Steps) : nat * nat :=
  (List.length (step_results_p st), List.length (testdata st)).

(** The port is open and the capture file can be written. *)
Definition ready (w : World) : Prop :=
  is_open (ser w) = true /\ cap_closed (capfile w) = false.

(** What the read loop of [ser_coms] gets from a list of arrivals when
    every read waits at most [t] milliseconds: the bytes up to the
    first pause that is not shorter than [t], and what is left for
    later. *)
Fixpoint delivered (t : nat) (inc : list (nat * ascii))
  : string * list (nat * ascii) :=
  match inc with
  | [] => (EmptyString, [])
  | (pause, c) :: rest =>
      if (pause <? t)%nat then
        let (s, left) := delivered t rest in (String c s, left)
      else (EmptyString, (pause - t, c) :: rest)
  end.

(** The bytes the port will see once the next command is written. *)
Definition to_come (w : World) : list (nat * ascii) :=
  incoming (ser w) ++ hd [] (device w).

(** Every byte still to come is ASCII. *)
Definition ascii_to_come (w : World) : Prop :=
  is_ascii (string_of_list_ascii (map snd (to_come w))) = true.

(** The text of a reply given in chunks. *)
Definition chunks_text (l : list (nat * string)) : string :=
  String.concat "" (map snd l).

(** One read result per byte of a text. *)
Definition byte_reads (s : string) : list string :=
  map (fun c => String c EmptyString) (list_ascii_of_string s).

(** A float stands at index [i] of a sample. *)
Definition reading (l : list string) (i : nat) (x : PyFloat.float) : Prop :=
  exists s, nth_error l i = Some s /\ PyFloat.parse s = Some x.

(** [x >= y] on floats. *)
Definition float_geb (x y : PyFloat.float) : bool := PyFloat.leb y x.







(** A declined retry leaves the port open, the capture file writable
    and the retry prompt as the last line of the console. *)
Definition declined_state (w : World) : Prop :=
  ready w
  /\ exists before,
       stdout w = (before ++ ["Would you like to try again? [y]/n "])%list.

(** Both lists have the same length, [n] at least. *)
Definition sized (n : nat) (st : Steps) : Prop :=
  n <= List.length (step_results_p st)
  /\ List.length (testdata st) = List.length (step_results_p st).

(* ================================================================== *)
(** * Reasoning about statements *)
(* ================================================================== *)

Lemma bind_ret_inv {A B} (m : M A) (k : A -> M B) w b w' :
  bind m k w = (Ret b, w') ->
  exists a w1, m w = (Ret a, w1) /\ k a w1 = (Ret b, w').
Proof.
  unfold bind. destruct (m w) as [[a | e | ] w1]; intros H; try discriminate.
  exists a, w1. split; [reflexivity | exact H].
Qed.

Lemma bind_ret_intro {A B} (m : M A) (k : A -> M B) w a w1 :
  m w = (Ret a, w1) -> bind m k w = k a w1.
Proof. intros H. unfold bind. rewrite H. reflexivity. Qed.

Lemma bind_raise_intro {A B} (m : M A) (k : A -> M B) w e w1 :
  m w = (Raise e, w1) -> bind m k w = (Raise e, w1).
Proof. intros H. unfold bind. rewrite H. reflexivity. Qed.

(** Splits a hypothesis [bind m k w = (Ret _, _)] into its two runs. *)
Tactic Notation "bind_inv" hyp(H) "as" ident(a) ident(w1) ident(H1) :=
  apply bind_ret_inv in H; destruct H as (a & w1 & H1 & H).

Tactic Notation "bind_inv" hyp(H) :=
  let a := fresh "a" in
  let w1 := fresh "w" in
  let H1 := fresh "Hrun" in
  bind_inv H as a w1 H1.

(** A run is its result and the world it leaves. *)
Lemma run_eq {A} (r : outcome A * World) (o : outcome A) :
  fst r = o -> r = (o, snd r).
Proof. intros <-. apply surjective_pairing. Qed.

Lemma ret_inv {A} (a b : A) w w' : ret a w = (Ret b, w') -> a = b /\ w = w'.
Proof. unfold ret. intros H. inversion H. split; reflexivity. Qed.

Lemma lift_inv {A} e (o : option A) a w w' :
  lift e o w = (Ret a, w') -> o = Some a /\ w = w'.
Proof.
  destruct o; simpl; unfold ret, raise; intros H; inversion H.
  split; reflexivity.
Qed.

(** ** Lists updated by index *)

Lemma list_set_length {A} (l : list A) i v l' :
  list_set l i v = Some l' -> List.length l' = List.length l.
Proof.
  revert i l'. induction l as [| h t IH]; intros i l' H.
  - destruct i; discriminate.
  - destruct i as [| i]; simpl in H.
    + inversion H. reflexivity.
    + destruct (list_set t i v) as [t' |] eqn:E; [| discriminate].
      inversion H. simpl. f_equal. eapply IH. exact E.
Qed.

Lemma list_set_in_range {A} (l : list A) i v :
  i < List.length l -> exists l', list_set l i v = Some l'.
Proof.
  revert i. induction l as [| h t IH]; intros i Hi; simpl in Hi.
  - lia.
  - destruct i as [| i]; simpl.
    + eexists. reflexivity.
    + destruct (IH i) as [t' Ht]; [lia |]. rewrite Ht. eexists. reflexivity.
Qed.

Lemma list_set_nth_same {A} (l : list A) i v l' :
  list_set l i v = Some l' -> nth_error l' i = Some v.
Proof.
  revert i l'. induction l as [| h t IH]; intros i l' H.
  - destruct i; discriminate.
  - destruct i as [| i]; simpl in H.
    + inversion H. reflexivity.
    + destruct (list_set t i v) as [t' |] eqn:E; [| discriminate].
      inversion H. simpl. eapply IH. exact E.
Qed.

Lemma list_set_nth_other {A} (l : list A) i j v l' :
  list_set l i v = Some l' -> i <> j -> nth_error l' j = nth_error l j.
Proof.
  revert i j l'. induction l as [| h t IH]; intros i j l' H Hij.
  - destruct i; discriminate.
  - destruct i as [| i]; simpl in H.
    + inversion H. destruct j; [congruence | reflexivity].
    + destruct (list_set t i v) as [t' |] eqn:E; [| discriminate].
      inversion H. destruct j as [| j]; [reflexivity |].
      simpl. eapply IH; [exact E | congruence].
Qed.

Lemma setitem_inv {A} (l : list A) i v l' w w' :
  setitem l i v w = (Ret l', w') -> list_set l i v = Some l' /\ w = w'.
Proof. unfold setitem. apply lift_inv. Qed.

Lemma setitem_in_range {A} (l : list A) i v w :
  i < List.length l ->
  exists l', list_set l i v = Some l' /\ setitem l i v w = (Ret l', w).
Proof.
  intros Hi. destruct (list_set_in_range l i v Hi) as [l' E].
  exists l'. split; [exact E |]. unfold setitem. rewrite E. reflexivity.
Qed.

Lemma getitem_some {A} (l : list A) i x w :
  nth_error l i = Some x -> getitem l i w = (Ret x, w).
Proof. intros H. unfold getitem. rewrite H. reflexivity. Qed.

Lemma getitem_none {A} (l : list A) i w :
  nth_error l i = None -> getitem l i w = (Raise IndexError, w).
Proof. intros H. unfold getitem. rewrite H. reflexivity. Qed.

Lemma mark_passed_inv st i text st' w w' :
  mark_passed st i text w = (Ret st', w') ->
  w = w' /\ slots st' = slots st
  /\ nth_error (step_results_p st') i = Some true
  /\ nth_error (testdata st') i = Some (Some text)
  /\ (forall j, j <> i ->
        nth_error (step_results_p st') j = nth_error (step_results_p st) j
        /\ nth_error (testdata st') j = nth_error (testdata st) j).
Proof.
  unfold mark_passed. intros H.
  bind_inv H. apply setitem_inv in Hrun. destruct Hrun as [Hp ->].
  bind_inv H. apply setitem_inv in Hrun. destruct Hrun as [Ht ->].
  apply ret_inv in H. destruct H as [<- <-].
  unfold slots. simpl.
  rewrite (list_set_length _ _ _ _ Hp), (list_set_length _ _ _ _ Ht).
  repeat split; eauto using list_set_nth_same.
  - eapply list_set_nth_other; eauto.
  - eapply list_set_nth_other; eauto.
Qed.

Lemma mark_passed_in_range st i text w :
  i < List.length (step_results_p st) -> i < List.length (testdata st) ->
  exists st', mark_passed st i text w = (Ret st', w).
Proof.
  intros Hp Ht. unfold mark_passed.
  destruct (setitem_in_range (step_results_p st) i true w Hp) as (p & _ & Ep).
  destruct (setitem_in_range (testdata st) i (Some text) w Ht) as (t & _ & Et).
  exists (mkSteps p t).
  rewrite (bind_ret_intro _ _ _ _ _ Ep), (bind_ret_intro _ _ _ _ _ Et).
  reflexivity.
Qed.

Lemma set_testdata_inv st i text st' w w' :
  set_testdata st i text w = (Ret st', w') ->
  w = w' /\ slots st' = slots st
  /\ step_results_p st' = step_results_p st
  /\ nth_error (testdata st') i = Some (Some text)
  /\ (forall j, j <> i -> nth_error (testdata st') j = nth_error (testdata st) j).
Proof.
  unfold set_testdata. intros H.
  bind_inv H. apply setitem_inv in Hrun. destruct Hrun as [Ht ->].
  apply ret_inv in H. destruct H as [<- <-].
  unfold slots. simpl. rewrite (list_set_length _ _ _ _ Ht).
  repeat split; eauto using list_set_nth_same.
  intros j Hj. eapply list_set_nth_other; eauto.
Qed.

(** ** Text *)

Lemma append_empty_r (s : string) : s ++ "" = s.
Proof. induction s as [| c s IH]; simpl; [reflexivity | now rewrite IH]. Qed.

Lemma append_assoc (a b c : string) : (a ++ b) ++ c = a ++ (b ++ c).
Proof. induction a as [| x a IH]; simpl; [reflexivity | now rewrite IH]. Qed.

Lemma append_length (a b : string) :
  String.length (a ++ b) = String.length a + String.length b.
Proof. induction a as [| x a IH]; simpl; [reflexivity | now rewrite IH]. Qed.

Lemma append_byte_neq (cap : string) (c : ascii) :
  String.eqb cap (cap ++ String c "") = false.
Proof.
  apply String.eqb_neq. intros H.
  apply (f_equal String.length) in H. rewrite append_length in H.
  simpl in H. lia.
Qed.

Lemma is_ascii_app (a b : string) :
  is_ascii (a ++ b) = (is_ascii a && is_ascii b)%bool.
Proof.
  unfold is_ascii. induction a as [| x a IH]; simpl; [reflexivity |].
  rewrite IH. now rewrite andb_assoc.
Qed.

Lemma is_ascii_cons (c : ascii) (s : string) :
  is_ascii (String c s) = ((Py.code c <? 128)%N && is_ascii s)%bool.
Proof. reflexivity. Qed.

(** ** The port *)

Lemma decode_ascii_ok (b : string) w :
  is_ascii b = true -> decode_ascii b w = (Ret b, w).
Proof. intros H. unfold decode_ascii. rewrite H. reflexivity. Qed.

Lemma encode_ascii_ok (b : string) w :
  is_ascii b = true -> encode_ascii b w = (Ret b, w).
Proof. intros H. unfold encode_ascii. rewrite H. reflexivity. Qed.

Lemma ser_read_one_arrives w pause c rest :
  is_open (ser w) = true -> in_buffer (ser w) = "" ->
  incoming (ser w) = (pause, c) :: rest ->
  (pause <? read_timeout (ser w))%nat = true ->
  ser_read 1 w =
  (Ret (String c ""),
   with_ser w (mkSerial true (read_timeout (ser w)) "" rest (tx (ser w))
                        (reads (ser w) ++ [String c ""]))).
Proof.
  intros Ho Hb Hi Hp. unfold ser_read. rewrite Ho, Hb, Hi. simpl.
  rewrite Hp. reflexivity.
Qed.

Lemma ser_read_one_late w pause c rest :
  is_open (ser w) = true -> in_buffer (ser w) = "" ->
  incoming (ser w) = (pause, c) :: rest ->
  (pause <? read_timeout (ser w))%nat = false ->
  ser_read 1 w =
  (Ret "",
   with_ser w (mkSerial true (read_timeout (ser w)) ""
                        ((pause - read_timeout (ser w), c) :: rest)
                        (tx (ser w)) (reads (ser w) ++ [""]))).
Proof.
  intros Ho Hb Hi Hp. unfold ser_read. rewrite Ho, Hb, Hi. simpl.
  rewrite Hp. reflexivity.
Qed.

Lemma ser_read_one_silent w :
  is_open (ser w) = true -> in_buffer (ser w) = "" ->
  incoming (ser w) = [] ->
  ser_read 1 w =
  (Ret "",
   with_ser w (mkSerial true (read_timeout (ser w)) "" []
                        (tx (ser w)) (reads (ser w) ++ [""]))).
Proof.
  intros Ho Hb Hi. unfold ser_read. rewrite Ho, Hb, Hi. reflexivity.
Qed.

Lemma capfile_write_ok s w :
  cap_closed (capfile w) = false ->
  capfile_write s w =
  (Ret tt, with_capfile w (mkCapFile (cap_name (capfile w))
                                     (cap_contents (capfile w) ++ s) false)).
Proof. intros H. unfold capfile_write. rewrite H. reflexivity. Qed.

(** The last pass of the read loop: nothing arrives, the text is
    written to the capture file and returned. *)
Lemma ser_coms_loop_last fuel cap w w1 :
  ser_read 1 w = (Ret "", w1) ->
  cap_closed (capfile w1) = false ->
  ser_coms_loop (S fuel) cap w =
  (Ret (cap ++ ""),
   with_capfile w1 (mkCapFile (cap_name (capfile w1))
                              (cap_contents (capfile w1) ++ cap ++ "") false)).
Proof.
  intros Hr Hc. simpl.
  rewrite (bind_ret_intro _ _ _ _ _ Hr).
  rewrite (bind_ret_intro _ _ _ _ _ (decode_ascii_ok "" w1 eq_refl)).
  rewrite append_empty_r, String.eqb_refl.
  rewrite (bind_ret_intro _ _ _ _ _ (capfile_write_ok cap w1 Hc)).
  reflexivity.
Qed.

(** Any other pass: a byte arrives and the loop goes on. *)
Lemma ser_coms_loop_next fuel cap w c w1 :
  ser_read 1 w = (Ret (String c ""), w1) ->
  (Py.code c <? 128)%N = true ->
  ser_coms_loop (S fuel) cap w = ser_coms_loop fuel (cap ++ String c "") w1.
Proof.
  intros Hr Hc. simpl.
  rewrite (bind_ret_intro _ _ _ _ _ Hr).
  assert (Ha : is_ascii (String c "") = true)
    by (rewrite is_ascii_cons, Hc; reflexivity).
  rewrite (bind_ret_intro _ _ _ _ _ (decode_ascii_ok _ w1 Ha)).
  rewrite append_byte_neq. reflexivity.
Qed.

(** ** The read loop *)

Lemma ser_coms_loop_delivers : forall inc fuel cap w,
  ready w ->
  in_buffer (ser w) = "" ->
  incoming (ser w) = inc ->
  List.length inc < fuel ->
  is_ascii (fst (delivered (read_timeout (ser w)) inc)) = true ->
  ser_coms_loop fuel cap w =
  (Ret (cap ++ fst (delivered (read_timeout (ser w)) inc)),
   with_capfile
     (with_ser w
        (mkSerial true (read_timeout (ser w)) ""
                  (snd (delivered (read_timeout (ser w)) inc))
                  (tx (ser w))
                  (reads (ser w)
                   ++ byte_reads (fst (delivered (read_timeout (ser w)) inc))
                   ++ [""])))
     (mkCapFile (cap_name (capfile w))
                (cap_contents (capfile w) ++ cap
                 ++ fst (delivered (read_timeout (ser w)) inc))
                false)).
Proof.
  induction inc as [| [pause c] rest IH];
    intros fuel cap w [Hopen Hcap] Hbuf Hinc Hfuel Hascii;
    (destruct fuel as [| fuel]; [simpl in Hfuel; lia |]).
  - rewrite (ser_coms_loop_last _ _ _ _ (ser_read_one_silent w Hopen Hbuf Hinc))
      by exact Hcap.
    reflexivity.
  - simpl delivered in *.
    destruct (pause <? read_timeout (ser w))%nat eqn:Hp.
    + destruct (delivered (read_timeout (ser w)) rest) as [s left] eqn:Hd.
      simpl fst in *. simpl snd in *.
      rewrite is_ascii_cons in Hascii. apply andb_prop in Hascii.
      destruct Hascii as [Hc Hs].
      rewrite (ser_coms_loop_next _ _ _ _ _
                 (ser_read_one_arrives w pause c rest Hopen Hbuf Hinc Hp) Hc).
      rewrite IH; simpl; try rewrite Hd; simpl; auto; try lia.
      * rewrite !append_assoc. simpl. rewrite <- !app_assoc. reflexivity.
      * split; [reflexivity | exact Hcap].
      * simpl in Hfuel. lia.
    + rewrite (ser_coms_loop_last _ _ _ _
                 (ser_read_one_late w pause c rest Hopen Hbuf Hinc Hp))
        by exact Hcap.
      reflexivity.
Qed.

Lemma read_bytes_length : forall n t buf inc,
  String.length (fst (fst (read_bytes n t buf inc))) <= n.
Proof.
  induction n as [| n IH]; intros t buf inc; simpl; [lia |].
  destruct buf as [| c buf].
  - destruct inc as [| [pause c] rest]; simpl; [lia |].
    destruct (pause <? t)%nat; simpl; [| lia].
    specialize (IH (t - pause) "" rest).
    destruct (read_bytes n (t - pause) "" rest) as [[r b] i]. simpl in *. lia.
  - specialize (IH t buf inc).
    destruct (read_bytes n t buf inc) as [[r b] i]. simpl in *. lia.
Qed.

(** The console and the capture file are out of reach of a read. *)
Lemma ser_read_inv n r w w' :
  ser_read n w = (Ret r, w') ->
  is_open (ser w) = true /\ is_open (ser w') = true
  /\ tx (ser w') = tx (ser w) /\ reads (ser w') = (reads (ser w) ++ [r])%list
  /\ read_timeout (ser w') = read_timeout (ser w)
  /\ capfile w' = capfile w /\ stdin w' = stdin w /\ stdout w' = stdout w
  /\ device w' = device w /\ String.length r <= n.
Proof.
  unfold ser_read. destruct (is_open (ser w)) eqn:Ho; [| discriminate].
  pose proof (read_bytes_length n (read_timeout (ser w)) (in_buffer (ser w))
                                (incoming (ser w))) as Hlen.
  destruct (read_bytes n (read_timeout (ser w)) (in_buffer (ser w))
                       (incoming (ser w))) as [[r0 b] i].
  intros H. inversion H; subst. simpl in *. repeat split; try reflexivity.
  exact Hlen.
Qed.

(** What a returning read loop has done: the text it returns is what it
    appended to the capture file, nothing was written to the port, and
    the reads it made each returned one byte, but for the last one,
    which returned nothing. *)
Lemma ser_coms_loop_inv : forall fuel cap w r w',
  ser_coms_loop fuel cap w = (Ret r, w') ->
  cap_contents (capfile w') = cap_contents (capfile w) ++ r
  /\ tx (ser w') = tx (ser w)
  /\ ready w'
  /\ stdin w' = stdin w /\ stdout w' = stdout w /\ device w' = device w
  /\ exists got, reads (ser w') = (reads (ser w) ++ got ++ [""])%list
                 /\ r = cap ++ String.concat "" got
                 /\ Forall (fun s => String.length s = 1) got.
Proof.
  induction fuel as [| fuel IH]; intros cap w r w' H; [discriminate |].
  simpl in H. bind_inv H.
  apply ser_read_inv in Hrun.
  destruct Hrun as (Ho & Ho1 & Htx & Hreads & Hto & Hcap & Hin & Hout & Hdev & Hlen).
  bind_inv H. unfold decode_ascii in Hrun.
  destruct (is_ascii a) eqn:Ha; [| discriminate].
  apply ret_inv in Hrun. destruct Hrun as [<- <-].
  destruct (String.eqb cap (cap ++ a)) eqn:He.
  - bind_inv H. unfold capfile_write in Hrun.
    destruct (cap_closed (capfile w0)) eqn:Hc; [discriminate |].
    inversion Hrun; subst. apply ret_inv in H. destruct H as [<- <-].
    apply String.eqb_eq in He.
    assert (a = "") as ->.
    { apply (f_equal String.length) in He. rewrite append_length in He.
      destruct a; [reflexivity | simpl in He; lia]. }
    simpl. rewrite Hcap, Htx, Hin, Hout, Hdev.
    repeat (split; [first [assumption | reflexivity
                           | split; simpl; first [assumption | reflexivity]] |]).
    exists []. simpl. rewrite Hreads. repeat split; auto.
  - apply IH in H.
    destruct H as (Hc' & Htx' & Hr' & Hin' & Hout' & Hdev' & got & Hg1 & Hg2 & Hg3).
    rewrite Hc', Htx', Hin', Hout', Hdev', Hcap, Htx, Hin, Hout, Hdev.
    repeat (split; [first [assumption | reflexivity] |]).
    exists (a :: got). rewrite Hg1, Hreads, <- app_assoc. simpl.
    repeat split.
    + rewrite Hg2. rewrite append_assoc.
      destruct got; simpl; [now rewrite !append_empty_r | reflexivity].
    + constructor; [| exact Hg3].
      destruct a as [| c a].
      * rewrite append_empty_r, String.eqb_refl in He. discriminate.
      * destruct a as [| c' a]; [reflexivity | simpl in Hlen; lia].
Qed.

(** ** [ser_coms] *)

Lemma reset_input_buffer_inv u w w' :
  reset_input_buffer w = (Ret u, w') ->
  is_open (ser w) = true
  /\ w' = with_ser w (mkSerial true (read_timeout (ser w)) ""
                               (incoming (ser w)) (tx (ser w)) (reads (ser w))).
Proof.
  unfold reset_input_buffer. destruct (is_open (ser w)); [| discriminate].
  intros H. inversion H. split; reflexivity.
Qed.

Lemma ser_write_inv data u w w' :
  ser_write data w = (Ret u, w') ->
  is_open (ser w) = true
  /\ w' = with_device
            (with_ser w (mkSerial true (read_timeout (ser w)) (in_buffer (ser w))
                                  (incoming (ser w) ++ hd [] (device w))
                                  (tx (ser w) ++ [data]) (reads (ser w))))
            (tl (device w)).
Proof.
  unfold ser_write. destruct (is_open (ser w)); [| discriminate].
  intros H. inversion H. split; reflexivity.
Qed.

Lemma in_waiting_inv n w w' :
  in_waiting w = (Ret n, w') ->
  n = String.length (in_buffer (ser w)) /\ w' = w.
Proof.
  unfold in_waiting. destruct (is_open (ser w)); [| discriminate].
  intros H. inversion H. split; reflexivity.
Qed.

Lemma reset_input_buffer_ok w :
  is_open (ser w) = true ->
  reset_input_buffer w =
  (Ret tt, with_ser w (mkSerial true (read_timeout (ser w)) ""
                                (incoming (ser w)) (tx (ser w)) (reads (ser w)))).
Proof. intros H. unfold reset_input_buffer. rewrite H. reflexivity. Qed.

Lemma ser_write_ok data w :
  is_open (ser w) = true ->
  ser_write data w =
  (Ret tt,
   with_device
     (with_ser w (mkSerial true (read_timeout (ser w)) (in_buffer (ser w))
                           (incoming (ser w) ++ hd [] (device w))
                           (tx (ser w) ++ [data]) (reads (ser w))))
     (tl (device w))).
Proof. intros H. unfold ser_write. rewrite H. reflexivity. Qed.

Lemma in_waiting_ok w :
  is_open (ser w) = true ->
  in_waiting w = (Ret (String.length (in_buffer (ser w))), w).
Proof. intros H. unfold in_waiting. rewrite H. reflexivity. Qed.

Lemma ser_read_nothing w :
  is_open (ser w) = true ->
  ser_read 0 w =
  (Ret "", with_ser w (mkSerial true (read_timeout (ser w)) (in_buffer (ser w))
                                (incoming (ser w)) (tx (ser w))
                                (reads (ser w) ++ [""]))).
Proof. intros H. unfold ser_read. rewrite H. reflexivity. Qed.

(** What a returning [ser_coms] has done. *)
Lemma ser_coms_inv cmd w r w' :
  ser_coms cmd w = (Ret r, w') ->
  cap_contents (capfile w') = cap_contents (capfile w) ++ r
  /\ tx (ser w') = (tx (ser w) ++ [(cmd ++ Py.CRLF)%string])%list
  /\ ready w'
  /\ stdin w' = stdin w /\ stdout w' = stdout w
  /\ device w' = tl (device w)
  /\ exists got, reads (ser w') = (reads (ser w) ++ "" :: got ++ [""])%list
                 /\ r = String.concat "" got
                 /\ Forall (fun s => String.length s = 1) got.
Proof.
  unfold ser_coms. intros H.
  bind_inv H. apply reset_input_buffer_inv in Hrun. destruct Hrun as [Ho ->].
  bind_inv H. unfold encode_ascii in Hrun.
  destruct (is_ascii (cmd ++ Py.CRLF)); [| discriminate].
  apply ret_inv in Hrun. destruct Hrun as [<- <-].
  bind_inv H. apply ser_write_inv in Hrun. destruct Hrun as [_ ->].
  bind_inv H. apply in_waiting_inv in Hrun. destruct Hrun as [-> ->].
  bind_inv H as b w0 Hrun. apply ser_read_inv in Hrun.
  destruct Hrun as (_ & _ & Htx0 & Hreads0 & _ & Hcap0 & Hin0 & Hout0 & Hdev0 & Hlen).
  simpl in Htx0, Hreads0, Hcap0, Hin0, Hout0, Hdev0, Hlen.
  assert (b = "") as -> by (destruct b; [reflexivity | simpl in Hlen; lia]).
  bind_inv H. apply ret_inv in Hrun. destruct Hrun as [<- <-].
  apply ser_coms_loop_inv in H.
  destruct H as (Hc & Htx & Hr & Hin & Hout & Hdev & got & Hg1 & Hg2 & Hg3).
  rewrite Hc, Htx, Hin, Hout, Hdev, Hcap0, Htx0, Hin0, Hout0, Hdev0.
  repeat (split; [first [assumption | reflexivity] |]).
  exists got. rewrite Hg1, Hreads0, <- app_assoc. simpl.
  repeat split; assumption.
Qed.

Lemma ser_coms_delivers cmd w :
  ready w ->
  is_ascii cmd = true ->
  is_ascii (fst (delivered (read_timeout (ser w)) (to_come w))) = true ->
  ser_coms cmd w =
  (Ret (fst (delivered (read_timeout (ser w)) (to_come w))),
   with_capfile
     (with_device
        (with_ser w
           (mkSerial true (read_timeout (ser w)) ""
                     (snd (delivered (read_timeout (ser w)) (to_come w)))
                     (tx (ser w) ++ [cmd ++ Py.CRLF])
                     (reads (ser w) ++ ""
                      :: byte_reads
                           (fst (delivered (read_timeout (ser w)) (to_come w)))
                      ++ [""])))
        (tl (device w)))
     (mkCapFile (cap_name (capfile w))
                (cap_contents (capfile w)
                 ++ fst (delivered (read_timeout (ser w)) (to_come w)))
                false)).
Proof.
  intros [Ho Hc] Hcmd Hascii. unfold ser_coms.
  erewrite bind_ret_intro by (apply reset_input_buffer_ok; exact Ho).
  assert (He : is_ascii (cmd ++ Py.CRLF) = true)
    by (rewrite is_ascii_app, Hcmd; reflexivity).
  erewrite bind_ret_intro by (apply encode_ascii_ok; exact He).
  erewrite bind_ret_intro by (apply ser_write_ok; reflexivity).
  erewrite bind_ret_intro by (apply in_waiting_ok; reflexivity).
  erewrite bind_ret_intro by (apply ser_read_nothing; reflexivity).
  erewrite bind_ret_intro by (apply decode_ascii_ok; reflexivity).
  rewrite (ser_coms_loop_delivers (to_come w)).
  - simpl. rewrite <- !app_assoc. reflexivity.
  - split; [reflexivity | exact Hc].
  - reflexivity.
  - reflexivity.
  - unfold pending. simpl. unfold to_come. lia.
  - exact Hascii.
Qed.

(** With every pause shorter than the timeout the whole list is
    delivered. *)
Lemma delivered_all t (inc : list (nat * ascii)) :
  Forall (fun p => fst p < t) inc ->
  delivered t inc = (string_of_list_ascii (map snd inc), []).
Proof.
  induction 1 as [| [pause c] rest Hp _ IH]; simpl; [reflexivity |].
  simpl in Hp. apply Nat.ltb_lt in Hp. rewrite Hp, IH. reflexivity.
Qed.

Lemma string_of_list_ascii_app (a b : list ascii) :
  string_of_list_ascii (a ++ b) = string_of_list_ascii a ++ string_of_list_ascii b.
Proof. induction a as [| x a IH]; simpl; [reflexivity | now rewrite IH]. Qed.

Lemma chunk_text pause s :
  string_of_list_ascii (map snd (chunk pause s)) = s.
Proof.
  unfold chunk.
  rewrite <- (string_of_list_ascii_of_string s) at 2.
  destruct (list_ascii_of_string s) as [| c rest]; simpl; [reflexivity |].
  rewrite map_map. simpl. rewrite map_id. reflexivity.
Qed.

Lemma chunks_are_text l :
  string_of_list_ascii (map snd (chunks l)) = chunks_text l.
Proof.
  unfold chunks, chunks_text.
  induction l as [| [pause s] l IH]; simpl; [reflexivity |].
  rewrite map_app, string_of_list_ascii_app, chunk_text, IH.
  destruct l as [| q l]; simpl; [apply append_empty_r | reflexivity].
Qed.

Lemma chunk_pauses t pause s :
  pause < t -> 0 < t -> Forall (fun p => fst p < t) (chunk pause s).
Proof.
  intros Hp Ht. unfold chunk.
  destruct (list_ascii_of_string s) as [| c rest]; constructor; [exact Hp |].
  apply Forall_forall. intros x Hx. apply in_map_iff in Hx.
  destruct Hx as (y & <- & _). exact Ht.
Qed.

Lemma chunks_pauses t l :
  Forall (fun p => fst p < t) l -> Forall (fun p => fst p < t) (chunks l).
Proof.
  unfold chunks. induction 1 as [| [pause s] l Hp _ IH]; simpl; [constructor |].
  apply Forall_app. split; [| exact IH].
  simpl in Hp. apply chunk_pauses; lia.
Qed.

(** ** [ser_coms] always ends *)

Lemma bind_ends {A B} (m : M A) (k : A -> M B) w :
  fst (m w) <> OutOfFuel ->
  (forall a w1, m w = (Ret a, w1) -> fst (k a w1) <> OutOfFuel) ->
  fst (bind m k w) <> OutOfFuel.
Proof.
  unfold bind. destruct (m w) as [[a | e | ] w1]; simpl; intros Hm Hk.
  - apply Hk. reflexivity.
  - discriminate.
  - congruence.
Qed.

(** A read of one byte returns nothing or takes a pending byte. *)
Lemma read_one_progress t buf inc r b i :
  read_bytes 1 t buf inc = (r, b, i) ->
  r = ""
  \/ String.length b + List.length i < String.length buf + List.length inc.
Proof.
  simpl. destruct buf as [| c buf].
  - destruct inc as [| [pause c] rest].
    + intros H. inversion H. left. reflexivity.
    + destruct (pause <? t)%nat; intros H; inversion H; subst; simpl.
      * right. lia.
      * left. reflexivity.
  - intros H. inversion H; subst. simpl. right. lia.
Qed.

Lemma ser_coms_loop_ends : forall fuel cap w,
  pending w < fuel -> fst (ser_coms_loop fuel cap w) <> OutOfFuel.
Proof.
  induction fuel as [| fuel IH]; intros cap w Hfuel; [lia |].
  simpl. unfold bind at 1. unfold ser_read.
  destruct (is_open (ser w)); [| discriminate].
  destruct (read_bytes 1 (read_timeout (ser w)) (in_buffer (ser w))
                       (incoming (ser w))) as [[r b] i] eqn:Hread.
  apply read_one_progress in Hread.
  unfold bind at 1. unfold decode_ascii.
  destruct (is_ascii r); [| discriminate].
  unfold ret at 1. cbv beta iota.
  destruct (String.eqb cap (cap ++ r)) eqn:He.
  - unfold bind, capfile_write. simpl.
    destruct (cap_closed (capfile w)); discriminate.
  - apply IH. unfold pending in *. simpl.
    destruct Hread as [-> | Hlt]; [| lia].
    rewrite append_empty_r, String.eqb_refl in He. discriminate.
Qed.

(** The fuel [ser_coms] gives its loop is enough: whatever the port
    delivers, the call returns or raises. *)
Lemma ser_coms_ends (cmd : string) (w : World) :
  fst (ser_coms cmd w) <> OutOfFuel.
Proof.
  unfold ser_coms.
  apply bind_ends.
  { unfold reset_input_buffer. destruct (is_open (ser w)); discriminate. }
  intros u1 w1 _. apply bind_ends.
  { unfold encode_ascii. destruct (is_ascii (cmd ++ Py.CRLF)); discriminate. }
  intros data w2 _. apply bind_ends.
  { unfold ser_write. destruct (is_open (ser w2)); discriminate. }
  intros u2 w3 _. apply bind_ends.
  { unfold in_waiting. destruct (is_open (ser w3)); discriminate. }
  intros n w4 _. apply bind_ends.
  { unfold ser_read. destruct (is_open (ser w4)); [| discriminate].
    destruct (read_bytes n _ _ _) as [[r b] i]. discriminate. }
  intros b w5 _. apply bind_ends.
  { unfold decode_ascii. destruct (is_ascii b); discriminate. }
  intros cap w6 _. apply ser_coms_loop_ends. lia.
Qed.

(* ================================================================== *)
(** * The transport channel: what is logged, when a reply is complete *)
(* ================================================================== *)

(** C2, counterexample.  The claim says that after any [ser_coms] call
    the transcript contains the command text as well as the response.
    An instrument that answers [S>] to [pwron] leaves a capture file
    that holds [S>] and nothing else: the command is not in it. *)
Lemma transcript_lacks_the_command :
  fst (ser_coms "pwron" (Mock.awake [Mock.reply "S>"] [])) = Ret "S>"
  /\ cap_contents
       (capfile (snd (ser_coms "pwron" (Mock.awake [Mock.reply "S>"] []))))
     = "S>"
  /\ Py.contains "pwron"
       (cap_contents
          (capfile (snd (ser_coms "pwron" (Mock.awake [Mock.reply "S>"] [])))))
     = false.
Proof. vm_compute. repeat split. Qed.

(** C2, amended.  Whenever [ser_coms] returns, the capture file is what
    it was before followed by the response, verbatim; the command, with
    its line end, went to the port and nowhere else.  The call always
    ends ([ser_coms_ends]), and it returns when the port is open, the
    capture file writable and the bytes ASCII ([ser_coms_delivers]). *)
Theorem ser_coms_logs_the_response (cmd : string) (w : World)
        (r : string) (w' : World) :
  ser_coms cmd w = (Ret r, w') ->
  cap_contents (capfile w') = cap_contents (capfile w) ++ r
  /\ tx (ser w') = (tx (ser w) ++ [(cmd ++ Py.CRLF)%string])%list.
Proof.
  intros H. apply ser_coms_inv in H.
  destruct H as (Hc & Htx & _). split; assumption.
Qed.

Lemma ser_coms_logs_the_response_witness :
  ser_coms "pwron" (Mock.awake [Mock.reply "S>"] [])
  = (Ret "S>", snd (ser_coms "pwron" (Mock.awake [Mock.reply "S>"] [])))
  /\ cap_contents
       (capfile (snd (ser_coms "pwron" (Mock.awake [Mock.reply "S>"] []))))
     = cap_contents (capfile (Mock.awake [Mock.reply "S>"] [])) ++ "S>"
  /\ tx (ser (snd (ser_coms "pwron" (Mock.awake [Mock.reply "S>"] []))))
     = (tx (ser (Mock.awake [Mock.reply "S>"] []))
        ++ [("pwron" ++ Py.CRLF)%string])%list.
Proof.
  assert (H : ser_coms "pwron" (Mock.awake [Mock.reply "S>"] [])
              = (Ret "S>",
                 snd (ser_coms "pwron" (Mock.awake [Mock.reply "S>"] [])))).
  { apply run_eq. vm_compute. reflexivity. }
  split; [exact H |].
  exact (ser_coms_logs_the_response _ _ _ _ H).
Defined.

(** C3, counterexample.  The claim says a response is complete only
    after two consecutive read attempts yield no new data.  A reply
    [ab] is returned after the reads [""], ["a"], ["b"], [""]: the last
    two attempts are ["b"] and [""], so a single silent read ended
    it. *)
Lemma reply_complete_after_one_silent_read :
  fst (ser_coms "id?" (Mock.awake [Mock.reply "ab"] [])) = Ret "ab"
  /\ reads (ser (snd (ser_coms "id?" (Mock.awake [Mock.reply "ab"] []))))
     = [""; "a"; "b"; ""]
  /\ ~ (exists earlier,
          reads (ser (snd (ser_coms "id?" (Mock.awake [Mock.reply "ab"] []))))
          = (earlier ++ [""; ""])%list).
Proof.
  assert (Hr : reads (ser (snd (ser_coms "id?" (Mock.awake [Mock.reply "ab"] []))))
               = [""; "a"; "b"; ""]) by (vm_compute; reflexivity).
  split; [vm_compute; reflexivity |]. split; [exact Hr |].
  rewrite Hr. intros [earlier He].
  apply (f_equal (@rev string)) in He. rewrite rev_app_distr in He.
  simpl in He. discriminate.
Qed.

(** C3, amended.  The response is complete at the first read attempt
    that yields nothing.  On an open port with nothing left over from
    before, a reply that comes in chunks, each after a pause shorter
    than the read timeout, is returned whole and appended to the
    capture file; the reads made are the empty read of what is waiting,
    one read per byte of the reply, and one silent read. *)
Theorem ser_coms_reassembles_the_reply (cmd : string) (w : World)
        (l : list (nat * string)) (rest : list (list (nat * ascii))) :
  ready w ->
  is_ascii cmd = true ->
  incoming (ser w) = [] ->
  device w = chunks l :: rest ->
  Forall (fun p => fst p < read_timeout (ser w)) l ->
  is_ascii (chunks_text l) = true ->
  exists w',
    ser_coms cmd w = (Ret (chunks_text l), w')
    /\ cap_contents (capfile w') = cap_contents (capfile w) ++ chunks_text l
    /\ reads (ser w')
       = (reads (ser w) ++ "" :: byte_reads (chunks_text l) ++ [""])%list
    /\ incoming (ser w') = [].
Proof.
  intros Hready Hcmd Hinc Hdev Hpauses Hascii.
  assert (Hd : delivered (read_timeout (ser w)) (to_come w)
               = (chunks_text l, [])).
  { unfold to_come. rewrite Hinc, Hdev. simpl.
    rewrite delivered_all by (apply chunks_pauses; exact Hpauses).
    rewrite chunks_are_text. reflexivity. }
  eexists. split.
  - rewrite ser_coms_delivers; [| assumption | assumption |].
    + rewrite Hd. reflexivity.
    + rewrite Hd. exact Hascii.
  - simpl. repeat split; reflexivity.
Qed.

Lemma ser_coms_reassembles_the_reply_witness :
  ready (Mock.awake [chunks [(100, "id =");  (4999, " 0"); (0, "1")]] [])
  /\ exists w',
       ser_coms "id?"
                (Mock.awake [chunks [(100, "id =");  (4999, " 0"); (0, "1")]] [])
       = (Ret "id = 01", w').
Proof.
  split; [split; reflexivity |].
  destruct (ser_coms_reassembles_the_reply
              "id?"
              (Mock.awake [chunks [(100, "id =");  (4999, " 0"); (0, "1")]] [])
              [(100, "id =");  (4999, " 0"); (0, "1")] [])
    as (w' & H & _).
  - split; reflexivity.
  - reflexivity.
  - reflexivity.
  - reflexivity.
  - repeat (constructor; [apply Nat.ltb_lt; vm_compute; reflexivity |]).
    constructor.
  - reflexivity.
  - exists w'. exact H.
Defined.

(* ================================================================== *)
(** * The operator's adjudication *)
(* ================================================================== *)

Lemma adjudicate_within {A} username announce (accepted declined retry : M A) :
  adjudicate false username announce accepted declined retry = accepted.
Proof. reflexivity. Qed.

Lemma adjudicate_violation {A} username announce (accepted declined retry : M A) :
  adjudicate true username announce accepted declined retry
  = ask_operator username announce accepted declined retry.
Proof. reflexivity. Qed.

Lemma ask_bother_answer username name others w a rest :
  Py.split username = name :: others ->
  stdin w = a :: rest ->
  ask_bother username w
  = (Ret a,
     with_stdin
       (with_stdout w (stdout w ++ ["Does this bother you, " ++ name
                                    ++ "? [y]/n "]))
       rest).
Proof.
  intros Hn Hin. unfold ask_bother.
  erewrite bind_ret_intro by (apply getitem_some; rewrite Hn; reflexivity).
  unfold input. rewrite Hin. reflexivity.
Qed.

(** The operator is not bothered: the check is accepted. *)
Lemma ask_operator_dismissed {A} username name others announce
      (accepted declined retry : M A) w w1 rest :
  announce w = (Ret tt, w1) ->
  Py.split username = name :: others ->
  stdin w1 = "n" :: rest ->
  ask_operator username announce accepted declined retry w
  = accepted
      (with_stdin
         (with_stdout w1 (stdout w1 ++ ["Does this bother you, " ++ name
                                        ++ "? [y]/n "]))
         rest).
Proof.
  intros Ha Hn Hin. unfold ask_operator.
  rewrite (bind_ret_intro _ _ _ _ _ Ha).
  rewrite (bind_ret_intro _ _ _ _ _ (ask_bother_answer _ _ _ _ _ _ Hn Hin)).
  reflexivity.
Qed.

(** The operator is bothered and declines to try again. *)
Lemma ask_operator_declined {A} username name others announce
      (accepted declined retry : M A) w w1 a rest :
  announce w = (Ret tt, w1) ->
  Py.split username = name :: others ->
  stdin w1 = a :: "n" :: rest ->
  a <> "n" ->
  ask_operator username announce accepted declined retry w
  = declined
      (with_stdin
         (with_stdout w1 (stdout w1
                          ++ ["Does this bother you, " ++ name ++ "? [y]/n "]
                          ++ ["Would you like to try again? [y]/n "]))
         rest).
Proof.
  intros Ha Hn Hin Hne. unfold ask_operator.
  rewrite (bind_ret_intro _ _ _ _ _ Ha).
  rewrite (bind_ret_intro _ _ _ _ _ (ask_bother_answer _ _ _ _ _ _ Hn Hin)).
  apply String.eqb_neq in Hne. rewrite Hne. simpl negb. cbv iota.
  unfold ask_again, bind, input. simpl. rewrite <- app_assoc. reflexivity.
Qed.

(* ================================================================== *)
(** * The clock checks *)
(* ================================================================== *)

Lemma clock_tolerance_true (d : DateTime.timedelta) :
  clock_tolerance d = true <-> (0 <= DateTime.seconds d <= 15)%Z.
Proof.
  unfold clock_tolerance. rewrite andb_true_iff, !Z.leb_le. reflexivity.
Qed.

Lemma clock_tolerance_false (d : DateTime.timedelta) :
  clock_tolerance d = false <-> (15 < DateTime.seconds d)%Z.
Proof.
  unfold clock_tolerance.
  assert (H : (0 <= DateTime.seconds d)%Z).
  { unfold DateTime.seconds, DateTime.us_per_day, DateTime.us_per_second,
      DateTime.seconds_per_day. Z.div_mod_to_equations. lia. }
  rewrite andb_false_iff, !Z.leb_gt. lia.
Qed.

(** The seconds field of a positive difference of whole days and
    seconds is the seconds. *)
Lemma seconds_of_days_and_seconds (k s : Z) :
  (0 <= s < 86400)%Z ->
  DateTime.seconds (DateTime.of_days k + DateTime.of_seconds s)%Z = s.
Proof.
  intros Hs.
  unfold DateTime.seconds, DateTime.of_days, DateTime.of_seconds,
    DateTime.us_per_day, DateTime.us_per_second, DateTime.seconds_per_day.
  Z.div_mod_to_equations. lia.
Qed.

(** The seconds field of a negative difference counts down from a full
    day. *)
Lemma seconds_of_negative (d : Z) :
  (DateTime.of_seconds 1 <= d <= DateTime.of_seconds 86384)%Z ->
  (16 <= DateTime.seconds (- d) <= 86399)%Z.
Proof.
  unfold DateTime.seconds, DateTime.of_seconds,
    DateTime.us_per_day, DateTime.us_per_second, DateTime.seconds_per_day.
  intros Hd. Z.div_mod_to_equations. lia.
Qed.

Lemma clock_set_within username instr target st w :
  clock_tolerance (DateTime.diff instr target) = true ->
  clock_set_decide username instr target st w = (Ret (Next, st), w).
Proof. intros H. unfold clock_set_decide. rewrite H. reflexivity. Qed.

Lemma clock_set_violation username instr target st w :
  clock_tolerance (DateTime.diff instr target) = false ->
  clock_set_decide username instr target st w
  = ask_operator
      username
      (print ("The instrument time " ++ DateTime.strftime_ds instr
              ++ " is not set to noon yesterday."))
      (ret (Next, st))
      (st <- set_testdata st 3 "The instrument clock was not set successfully." ;;
       ret (Next, st))%py
      (ret (Continue, st)) w.
Proof. intros H. unfold clock_set_decide. rewrite H. reflexivity. Qed.

Lemma clock_reset_within username now instr st w :
  clock_tolerance (DateTime.diff now instr) = true ->
  clock_reset_decide username now instr st w
  = (st <- mark_passed st 3 "Instrument clock set successfully." ;;
     ret (Complete, st))%py w.
Proof. intros H. unfold clock_reset_decide. rewrite H. reflexivity. Qed.

Lemma clock_reset_violation username now instr st w :
  clock_tolerance (DateTime.diff now instr) = false ->
  clock_reset_decide username now instr st w
  = ask_operator
      username
      (now <- utcnow ;;
       print ("The instrument time " ++ DateTime.strftime_ds instr
              ++ " is not set to the current time "
              ++ DateTime.strftime_ds now ++ "."))%py
      (st <- mark_passed st 3 "Instrument clock set successfully." ;;
       ret (Complete, st))%py
      (st <- note_clock_not_reset st ;;
       ret (Complete, st))%py
      (ret (Again, st)) w.
Proof. intros H. unfold clock_reset_decide. rewrite H. reflexivity. Qed.

(** C4.  A difference of 0 or 15 seconds is within tolerance and a
    difference of 16 seconds is not.  In the set check (instrument
    minus target) a difference within tolerance lets the pass go on
    without a word to the operator, and in the reset check (current
    time minus instrument) it marks step 3 as passed; a difference of 16
    seconds hands either check to the operator. *)
Theorem clock_tolerance_0_15_16 (username : string) (t : DateTime.datetime)
        (st : Steps) (w : World) :
  clock_tolerance (DateTime.of_seconds 0) = true
  /\ clock_tolerance (DateTime.of_seconds 15) = true
  /\ clock_tolerance (DateTime.of_seconds 16) = false
  /\ clock_set_decide username (t + DateTime.of_seconds 0)%Z t st w
     = (Ret (Next, st), w)
  /\ clock_set_decide username (t + DateTime.of_seconds 15)%Z t st w
     = (Ret (Next, st), w)
  /\ clock_set_decide username (t + DateTime.of_seconds 16)%Z t st w
     = ask_operator
         username
         (print ("The instrument time "
                 ++ DateTime.strftime_ds (t + DateTime.of_seconds 16)%Z
                 ++ " is not set to noon yesterday."))
         (ret (Next, st))
         (st <- set_testdata st 3
                  "The instrument clock was not set successfully." ;;
          ret (Next, st))%py
         (ret (Continue, st)) w
  /\ clock_reset_decide username (t + DateTime.of_seconds 0)%Z t st w
     = (st <- mark_passed st 3 "Instrument clock set successfully." ;;
        ret (Complete, st))%py w
  /\ clock_reset_decide username (t + DateTime.of_seconds 15)%Z t st w
     = (st <- mark_passed st 3 "Instrument clock set successfully." ;;
        ret (Complete, st))%py w
  /\ clock_reset_decide username (t + DateTime.of_seconds 16)%Z t st w
     = ask_operator
         username
         (now <- utcnow ;;
          print ("The instrument time " ++ DateTime.strftime_ds t
                 ++ " is not set to the current time "
                 ++ DateTime.strftime_ds now ++ "."))%py
         (st <- mark_passed st 3 "Instrument clock set successfully." ;;
          ret (Complete, st))%py
         (st <- note_clock_not_reset st ;;
          ret (Complete, st))%py
         (ret (Again, st)) w.
Proof.
  assert (Hd : forall s, DateTime.diff (t + DateTime.of_seconds s)%Z t
                         = DateTime.of_seconds s)
    by (intros s; unfold DateTime.diff; lia).
  repeat apply conj.
  - reflexivity.
  - reflexivity.
  - reflexivity.
  - apply clock_set_within. rewrite Hd. reflexivity.
  - apply clock_set_within. rewrite Hd. reflexivity.
  - apply clock_set_violation. rewrite Hd. reflexivity.
  - apply clock_reset_within. rewrite Hd. reflexivity.
  - apply clock_reset_within. rewrite Hd. reflexivity.
  - apply clock_reset_violation. rewrite Hd. reflexivity.
Qed.

(** C10, counterexample.  The claim says an instrument clock that is
    ahead of the target by between 1 and 86384 seconds is a violation.
    In the set check the difference is instrument minus target: an
    instrument five seconds ahead of noon gives a difference of five
    seconds, which is within tolerance; nothing is printed and the
    operator is not asked. *)
Lemma clock_ahead_of_target_is_within_tolerance :
  clock_tolerance
    (DateTime.diff (Mock.noon + DateTime.of_seconds 5)%Z Mock.noon) = true
  /\ fst (clock_set_decide "Ada" (Mock.noon + DateTime.of_seconds 5)%Z
                           Mock.noon Mock.steps_before_clock
                           (Mock.awake [] ["y"; "n"]))
     = Ret (Next, Mock.steps_before_clock)
  /\ stdout (snd (clock_set_decide "Ada" (Mock.noon + DateTime.of_seconds 5)%Z
                                   Mock.noon Mock.steps_before_clock
                                   (Mock.awake [] ["y"; "n"])))
     = []
  /\ stdin (snd (clock_set_decide "Ada" (Mock.noon + DateTime.of_seconds 5)%Z
                                  Mock.noon Mock.steps_before_clock
                                  (Mock.awake [] ["y"; "n"])))
     = ["y"; "n"].
Proof. vm_compute. repeat apply conj; reflexivity. Qed.

(** C10, amended.  The predicate looks at the seconds field of the
    difference only, so sign and whole days are lost.  A difference
    that is negative by [d], from 1 second to 86384 seconds, is a
    violation; a difference of [k] whole days and [s] seconds, [s] from 0
    to 15, is within tolerance.  In the reset check the difference is
    current time minus instrument, so the first is an instrument ahead
    of the current time and the second an instrument behind it.  In the
    set check the difference is instrument minus target, so the first is
    an instrument behind the target and the second an instrument ahead
    of it. *)
Theorem clock_tolerance_ignores_sign_and_days
        (username : string) (t : DateTime.datetime) (st : Steps) (w : World)
        (d k s : Z) :
  (DateTime.of_seconds 1 <= d <= DateTime.of_seconds 86384)%Z ->
  (0 <= k)%Z ->
  (0 <= s <= 15)%Z ->
  (* the predicate *)
  clock_tolerance (- d)%Z = false
  /\ clock_tolerance (DateTime.of_days k + DateTime.of_seconds s)%Z = true
  (* reset check, instrument ahead of the current time by [d] *)
  /\ clock_reset_decide username t (t + d)%Z st w
     = ask_operator
         username
         (now <- utcnow ;;
          print ("The instrument time " ++ DateTime.strftime_ds (t + d)%Z
                 ++ " is not set to the current time "
                 ++ DateTime.strftime_ds now ++ "."))%py
         (st <- mark_passed st 3 "Instrument clock set successfully." ;;
          ret (Complete, st))%py
         (st <- note_clock_not_reset st ;;
          ret (Complete, st))%py
         (ret (Again, st)) w
  (* reset check, instrument behind the current time by [k] days and [s] seconds *)
  /\ clock_reset_decide
       username t (t - (DateTime.of_days k + DateTime.of_seconds s))%Z st w
     = (st <- mark_passed st 3 "Instrument clock set successfully." ;;
        ret (Complete, st))%py w
  (* set check, instrument behind the target by [d] *)
  /\ clock_set_decide username (t - d)%Z t st w
     = ask_operator
         username
         (print ("The instrument time " ++ DateTime.strftime_ds (t - d)%Z
                 ++ " is not set to noon yesterday."))
         (ret (Next, st))
         (st <- set_testdata st 3
                  "The instrument clock was not set successfully." ;;
          ret (Next, st))%py
         (ret (Continue, st)) w
  (* set check, instrument ahead of the target by [k] days and [s] seconds *)
  /\ clock_set_decide
       username (t + (DateTime.of_days k + DateTime.of_seconds s))%Z t st w
     = (Ret (Next, st), w).
Proof.
  intros Hd Hk Hs.
  assert (Hneg : clock_tolerance (- d)%Z = false).
  { apply clock_tolerance_false. pose proof (seconds_of_negative d Hd). lia. }
  assert (Hpos : clock_tolerance
                   (DateTime.of_days k + DateTime.of_seconds s)%Z = true).
  { apply clock_tolerance_true. rewrite seconds_of_days_and_seconds; lia. }
  repeat apply conj.
  - exact Hneg.
  - exact Hpos.
  - apply clock_reset_violation.
    replace (DateTime.diff t (t + d)%Z) with (- d)%Z
      by (unfold DateTime.diff; lia).
    exact Hneg.
  - apply clock_reset_within.
    replace (DateTime.diff
               t (t - (DateTime.of_days k + DateTime.of_seconds s))%Z)
      with (DateTime.of_days k + DateTime.of_seconds s)%Z
      by (unfold DateTime.diff; lia).
    exact Hpos.
  - apply clock_set_violation.
    replace (DateTime.diff (t - d)%Z t) with (- d)%Z
      by (unfold DateTime.diff; lia).
    exact Hneg.
  - apply clock_set_within.
    replace (DateTime.diff
               (t + (DateTime.of_days k + DateTime.of_seconds s))%Z t)
      with (DateTime.of_days k + DateTime.of_seconds s)%Z
      by (unfold DateTime.diff; lia).
    exact Hpos.
Qed.

Lemma clock_tolerance_ignores_sign_and_days_witness :
  (DateTime.of_seconds 1 <= DateTime.of_seconds 3600
   <= DateTime.of_seconds 86384)%Z
  /\ (0 <= 2)%Z /\ (0 <= 15 <= 15)%Z
  /\ clock_tolerance (- DateTime.of_seconds 3600)%Z = false
  /\ clock_tolerance (DateTime.of_days 2 + DateTime.of_seconds 15)%Z = true.
Proof.
  assert (H1 : (DateTime.of_seconds 1 <= DateTime.of_seconds 3600
                <= DateTime.of_seconds 86384)%Z)
    by (vm_compute; split; discriminate).
  assert (H2 : (0 <= 2)%Z) by lia.
  assert (H3 : (0 <= 15 <= 15)%Z) by lia.
  repeat (split; [assumption |]).
  destruct (clock_tolerance_ignores_sign_and_days
              "Ada" Mock.noon Mock.steps_before_clock (Mock.awake [] [])
              (DateTime.of_seconds 3600) 2 15 H1 H2 H3)
    as (Hn & Hp & _).
  split; [exact Hn | exact Hp].
Defined.

(* ================================================================== *)
(** * The sample-interval check *)
(* ================================================================== *)

(** What the check does once the reported interval is known. *)
Lemma interval_decide_reported i desired username ds st w reported :
  nth_error ds 29 = Some reported ->
  interval_decide i desired username ds st w
  = (print (Py.join " " (Py.slice 26 31 ds)) ;;
     adjudicate
       (negb (String.eqb reported desired))
       username
       (print "The sample interval was not set to the correct value.")
       (st <- mark_passed st i
                ("Sampling configuration changed successfully." ++ Py.CRLF
                 ++ Py.join " " (Py.slice 26 31 ds)) ;;
        ret (Complete, st))
       (st <- set_testdata st i
                ("The sample interval was not set successfully." ++ Py.CRLF) ;;
        ret (Complete, st))
       (ret (Again, st)))%py w.
Proof.
  intros H. unfold interval_decide.
  rewrite (bind_ret_intro _ _ _ _ _ (getitem_some _ _ _ w H)).
  reflexivity.
Qed.

(** C5.  The reported interval is compared with the interval asked for
    as a string.  When token 29 of the status reply is the very string
    that was configured, the step is marked as passed with no question
    asked; when it is any other string, the violation is announced and
    the operator decides. *)
Theorem interval_check_is_string_equality
        (i : nat) (desired reported username : string)
        (ds_same ds_other : list string) (st : Steps) (w : World) :
  nth_error ds_same 29 = Some desired ->
  nth_error ds_other 29 = Some reported ->
  reported <> desired ->
  interval_decide i desired username ds_same st w
  = (print (Py.join " " (Py.slice 26 31 ds_same)) ;;
     st <- mark_passed st i
             ("Sampling configuration changed successfully." ++ Py.CRLF
              ++ Py.join " " (Py.slice 26 31 ds_same)) ;;
     ret (Complete, st))%py w
  /\ interval_decide i desired username ds_other st w
     = (print (Py.join " " (Py.slice 26 31 ds_other)) ;;
        ask_operator
          username
          (print "The sample interval was not set to the correct value.")
          (st <- mark_passed st i
                   ("Sampling configuration changed successfully." ++ Py.CRLF
                    ++ Py.join " " (Py.slice 26 31 ds_other)) ;;
           ret (Complete, st))
          (st <- set_testdata st i
                   ("The sample interval was not set successfully."
                    ++ Py.CRLF) ;;
           ret (Complete, st))
          (ret (Again, st)))%py w.
Proof.
  intros Hsame Hother Hne. split.
  - rewrite (interval_decide_reported _ _ _ _ _ _ _ Hsame).
    rewrite String.eqb_refl. reflexivity.
  - rewrite (interval_decide_reported _ _ _ _ _ _ _ Hother).
    apply String.eqb_neq in Hne. rewrite Hne. reflexivity.
Qed.

(** The interval 120 is configured; the instrument reports 120 in one
    status reply and 119 in another. *)
Lemma interval_check_is_string_equality_witness :
  nth_error (Py.split (Mock.status "22 Jun 2020  12:00:25" "120")) 29
  = Some "120"
  /\ nth_error (Py.split (Mock.status "22 Jun 2020  12:00:25" "119")) 29
     = Some "119"
  /\ "119" <> "120"
  /\ fst (interval_decide 4 "120" "Ada Lovelace"
            (Py.split (Mock.status "22 Jun 2020  12:00:25" "120"))
            Mock.steps_before_clock (Mock.awake [] ["n"]))
     = fst ((print "sample interval = 120 seconds" ;;
             st <- mark_passed Mock.steps_before_clock 4
                     ("Sampling configuration changed successfully."
                      ++ Py.CRLF ++ "sample interval = 120 seconds") ;;
             ret (Complete, st))%py (Mock.awake [] ["n"]))
  /\ stdout (snd (interval_decide 4 "120" "Ada Lovelace"
                    (Py.split (Mock.status "22 Jun 2020  12:00:25" "119"))
                    Mock.steps_before_clock (Mock.awake [] ["n"])))
     = ["sample interval = 119 seconds";
        "The sample interval was not set to the correct value.";
        "Does this bother you, Ada? [y]/n "].
Proof.
  assert (H1 : nth_error (Py.split (Mock.status "22 Jun 2020  12:00:25" "120")) 29
               = Some "120") by (vm_compute; reflexivity).
  assert (H2 : nth_error (Py.split (Mock.status "22 Jun 2020  12:00:25" "119")) 29
               = Some "119") by (vm_compute; reflexivity).
  assert (H3 : "119" <> "120") by discriminate.
  repeat (split; [assumption |]).
  destruct (interval_check_is_string_equality
              4 "120" "119" "Ada Lovelace" _ _
              Mock.steps_before_clock (Mock.awake [] ["n"]) H1 H2 H3)
    as [Hsame Hother].
  split.
  - rewrite Hsame. vm_compute. reflexivity.
  - rewrite Hother. vm_compute. reflexivity.
Defined.

(* ================================================================== *)
(** * Floats: comparison and subtraction *)
(* ================================================================== *)

Lemma compare_cont_swap (p q : positive) :
  Pos.compare_cont Eq q p = CompOpp (Pos.compare_cont Eq p q).
Proof. rewrite Pos.compare_cont_antisym. reflexivity. Qed.

Lemma SFcompare_antisym (x y : spec_float) :
  SFcompare y x = option_map CompOpp (SFcompare x y).
Proof.
  destruct x as [sx | sx | | sx mx ex], y as [sy | sy | | sy my ey]; simpl;
    try reflexivity;
    try (destruct sx; reflexivity);
    try (destruct sy; reflexivity);
    try (destruct sx, sy; reflexivity).
  destruct sx, sy; try reflexivity; f_equal;
    rewrite (Z.compare_antisym ex ey);
    destruct (ex ?= ey)%Z; simpl; try reflexivity.
  - rewrite (compare_cont_swap mx my). reflexivity.
  - apply compare_cont_swap.
Qed.

Lemma SFcompare_none (x y : spec_float) :
  SFcompare x y = None -> PyFloat.is_nan x = true \/ PyFloat.is_nan y = true.
Proof.
  destruct x as [sx | sx | | sx mx ex], y as [sy | sy | | sy my ey]; simpl;
    intros H; try discriminate; auto.
Qed.

(** On numbers, [x <= y] is the negation of [x > y]. *)
Lemma leb_is_not_gtb (x y : PyFloat.float) :
  PyFloat.is_nan x = false -> PyFloat.is_nan y = false ->
  PyFloat.leb x y = negb (PyFloat.gtb x y).
Proof.
  intros Hx Hy. unfold PyFloat.leb, PyFloat.gtb, SFleb, SFltb.
  rewrite (SFcompare_antisym x y).
  destruct (SFcompare x y) as [[ | | ] |] eqn:E; simpl; try reflexivity.
  apply SFcompare_none in E. destruct E; congruence.
Qed.

(** On numbers, [x < y] is the negation of [x >= y]. *)
Lemma ltb_is_not_geb (x y : PyFloat.float) :
  PyFloat.is_nan x = false -> PyFloat.is_nan y = false ->
  PyFloat.ltb x y = negb (float_geb x y).
Proof.
  intros Hx Hy. unfold float_geb.
  rewrite (leb_is_not_gtb y x Hy Hx). unfold PyFloat.gtb, PyFloat.ltb.
  now rewrite negb_involutive.
Qed.

Lemma shr_1_nonneg (mrs : shr_record) :
  (0 <= shr_m mrs)%Z -> (0 <= shr_m (shr_1 mrs))%Z.
Proof.
  destruct mrs as [m r s]. simpl.
  destruct m as [| [p | p | ] | p]; simpl; lia.
Qed.

Lemma iter_shr_1_nonneg (p : positive) : forall mrs,
  (0 <= shr_m mrs)%Z -> (0 <= shr_m (iter_pos shr_1 p mrs))%Z.
Proof.
  induction p as [p IH | p IH |]; intros mrs H; simpl.
  - apply IH, IH, shr_1_nonneg, H.
  - apply IH, IH, H.
  - apply shr_1_nonneg, H.
Qed.

Lemma shr_fexp_nonneg (m e : Z) (l : location) :
  (0 <= m)%Z ->
  (0 <= shr_m (fst (shr_fexp PyFloat.prec PyFloat.emax m e l)))%Z.
Proof.
  intros H. unfold shr_fexp, shr.
  assert (Hm : shr_m (shr_record_of_loc m l) = m)
    by (destruct l as [| []]; reflexivity).
  destruct (fexp PyFloat.prec PyFloat.emax (Zdigits2 m + e) - e)%Z;
    simpl; try (rewrite Hm; exact H).
  apply iter_shr_1_nonneg. rewrite Hm. exact H.
Qed.

Lemma round_nearest_even_nonneg (m : Z) (l : location) :
  (0 <= m)%Z -> (0 <= round_nearest_even m l)%Z.
Proof.
  intros H. unfold round_nearest_even.
  destruct l as [| []]; try destruct (Z.even m); lia.
Qed.

Lemma binary_round_aux_is_a_number (sx : bool) (mx ex : Z) (lx : location) :
  (0 <= mx)%Z ->
  PyFloat.is_nan (binary_round_aux PyFloat.prec PyFloat.emax sx mx ex lx) = false.
Proof.
  intros H. unfold binary_round_aux.
  pose proof (shr_fexp_nonneg mx ex lx H) as H1.
  destruct (shr_fexp PyFloat.prec PyFloat.emax mx ex lx) as [mrs' e'].
  simpl in H1.
  pose proof (shr_fexp_nonneg
                (round_nearest_even (shr_m mrs') (loc_of_shr_record mrs'))
                e' loc_Exact
                (round_nearest_even_nonneg _ _ H1)) as H2.
  destruct (shr_fexp PyFloat.prec PyFloat.emax
                     (round_nearest_even (shr_m mrs') (loc_of_shr_record mrs'))
                     e' loc_Exact) as [mrs'' e''].
  simpl in H2.
  destruct (shr_m mrs'') as [| m | m]; try reflexivity.
  - destruct (e'' <=? PyFloat.emax - PyFloat.prec)%Z; reflexivity.
  - lia.
Qed.

Lemma binary_normalize_is_a_number (m e : Z) (szero : bool) :
  PyFloat.is_nan (binary_normalize PyFloat.prec PyFloat.emax m e szero) = false.
Proof.
  unfold binary_normalize, binary_round.
  destruct m as [| p | p]; try reflexivity.
  - destruct (shl_align p e _) as [mz ez].
    apply binary_round_aux_is_a_number. lia.
  - destruct (shl_align p e _) as [mz ez].
    apply binary_round_aux_is_a_number. lia.
Qed.

(** The difference of two finite floats is a number. *)
Lemma sub_is_a_number (x y : PyFloat.float) :
  PyFloat.is_finite x = true -> PyFloat.is_finite y = true ->
  PyFloat.is_nan (PyFloat.sub x y) = false.
Proof.
  unfold PyFloat.sub.
  destruct x as [sx | sx | | sx mx ex], y as [sy | sy | | sy my ey];
    simpl; intros Hx Hy; try discriminate; try reflexivity.
  - destruct sx, sy; reflexivity.
  - apply binary_normalize_is_a_number.
Qed.

Lemma float_at_reading l i x w :
  reading l i x -> float_at l i w = (Ret x, w).
Proof.
  intros (s & Hs & Hp). unfold float_at.
  rewrite (bind_ret_intro _ _ _ _ _ (getitem_some _ _ _ w Hs)).
  rewrite Hp. reflexivity.
Qed.

(* ================================================================== *)
(** * The differential checks *)
(* ================================================================== *)

Lemma pressure_verdict_accepts username bucket air st :
  pressure_verdict username bucket air st false
  = (st <- mark_passed st 8 "Pressure sensor correctly records changes." ;;
     ret (Next, st))%py.
Proof. reflexivity. Qed.

Lemma temperature_verdict_accepts username bucket air st :
  temperature_verdict username bucket air st false
  = (st <- mark_passed st 9 "Temp data changes as expected." ;;
     ret (Complete, st))%py.
Proof. reflexivity. Qed.

Lemma pressure_not_greater_readings bucket air pb pa w :
  reading bucket 3 pb -> reading air 3 pa ->
  pressure_not_greater bucket air w = (Ret (PyFloat.leb pb pa), w).
Proof.
  intros Hb Ha. unfold pressure_not_greater.
  rewrite (bind_ret_intro _ _ _ _ _ (float_at_reading _ _ _ w Hb)).
  rewrite (bind_ret_intro _ _ _ _ _ (float_at_reading _ _ _ w Ha)).
  reflexivity.
Qed.

Lemma temperature_not_warmer_readings bucket air tb ta w :
  reading bucket 1 tb -> reading air 1 ta ->
  temperature_not_warmer bucket air w
  = (Ret (PyFloat.ltb (PyFloat.sub tb ta) (PyFloat.of_Z 1)), w).
Proof.
  intros Hb Ha. unfold temperature_not_warmer.
  rewrite (bind_ret_intro _ _ _ _ _ (float_at_reading _ _ _ w Hb)).
  rewrite (bind_ret_intro _ _ _ _ _ (float_at_reading _ _ _ w Ha)).
  reflexivity.
Qed.

(** C7, counterexample.  The claim says the pressure check passes
    exactly when the second pressure strictly exceeds the first, and
    the temperature check exactly when the second temperature exceeds
    the first by at least 1.0.  [float] accepts the text [nan]; a
    second sample whose temperature and pressure read [nan] exceeds
    nothing, yet every comparison with it is false, so both checks mark
    their step as passed and the operator is not asked. *)
Lemma nan_sample_passes_both_checks :
  PyFloat.parse "nan" = Some S754_nan
  /\ PyFloat.gtb S754_nan (PyFloat.of_Z 1) = false
  /\ float_geb (PyFloat.sub S754_nan (PyFloat.of_Z 20)) (PyFloat.of_Z 1) = false
  /\ fst (pressure_check "Ada" (Mock.fields "nan" "3.1" "nan")
                         (Mock.fields "20.0" "0.0" "1.0")
                         Mock.steps_before_bucket (Mock.awake [] ["y"; "n"]))
     = fst ((st <- mark_passed Mock.steps_before_bucket 8
                     "Pressure sensor correctly records changes." ;;
             ret (Next, st))%py (Mock.awake [] ["y"; "n"]))
  /\ fst (temperature_check "Ada" (Mock.fields "nan" "3.1" "nan")
                            (Mock.fields "20.0" "0.0" "1.0")
                            Mock.steps_before_bucket (Mock.awake [] ["y"; "n"]))
     = fst ((st <- mark_passed Mock.steps_before_bucket 9
                     "Temp data changes as expected." ;;
             ret (Complete, st))%py (Mock.awake [] ["y"; "n"]))
  /\ stdout (snd (pressure_check "Ada" (Mock.fields "nan" "3.1" "nan")
                                 (Mock.fields "20.0" "0.0" "1.0")
                                 Mock.steps_before_bucket
                                 (Mock.awake [] ["y"; "n"])))
     = []
  /\ stdout (snd (temperature_check "Ada" (Mock.fields "nan" "3.1" "nan")
                                    (Mock.fields "20.0" "0.0" "1.0")
                                    Mock.steps_before_bucket
                                    (Mock.awake [] ["y"; "n"])))
     = [].
Proof. vm_compute. repeat apply conj; reflexivity. Qed.

(** C7, amended.  For two samples whose pressures are numbers (not
    NaN) and whose temperature difference, second minus first as
    computed in binary64, is a number, the pressure check marks its step
    as passed without asking exactly when the second pressure is greater
    than the first, and the temperature check exactly when the
    difference is at least 1.0; otherwise the operator decides.  The
    difference of two finite temperatures is always a number
    ([sub_is_a_number]). *)
Theorem differential_checks
        (username : string) (sample_bucket sample_air : list string)
        (pb pa tb ta : PyFloat.float) (st : Steps) (w : World) :
  reading sample_bucket 3 pb -> reading sample_air 3 pa ->
  reading sample_bucket 1 tb -> reading sample_air 1 ta ->
  PyFloat.is_nan pb = false -> PyFloat.is_nan pa = false ->
  PyFloat.is_nan (PyFloat.sub tb ta) = false ->
  pressure_check username sample_bucket sample_air st w
  = pressure_verdict username sample_bucket sample_air st
                     (negb (PyFloat.gtb pb pa)) w
  /\ temperature_check username sample_bucket sample_air st w
     = temperature_verdict username sample_bucket sample_air st
                           (negb (float_geb (PyFloat.sub tb ta)
                                            (PyFloat.of_Z 1))) w.
Proof.
  intros Hpb Hpa Htb Hta Npb Npa Nd. split.
  - unfold pressure_check.
    rewrite (bind_ret_intro _ _ _ _ _
               (pressure_not_greater_readings _ _ _ _ w Hpb Hpa)).
    rewrite (leb_is_not_gtb pb pa Npb Npa). reflexivity.
  - unfold temperature_check.
    rewrite (bind_ret_intro _ _ _ _ _
               (temperature_not_warmer_readings _ _ _ _ w Htb Hta)).
    rewrite (ltb_is_not_geb (PyFloat.sub tb ta) (PyFloat.of_Z 1) Nd eq_refl).
    reflexivity.
Qed.

(** Pressure 1.5 after 1.0 and temperature 22.5 after 20.0: both checks
    pass. *)
Lemma differential_checks_witness :
  reading (Mock.fields "22.5" "3.1" "1.5") 3
          (S754_finite false 6755399441055744 (-52))
  /\ reading (Mock.fields "20.0" "0.0" "1.0") 3
             (S754_finite false 4503599627370496 (-52))
  /\ reading (Mock.fields "22.5" "3.1" "1.5") 1
             (S754_finite false 6333186975989760 (-48))
  /\ reading (Mock.fields "20.0" "0.0" "1.0") 1
             (S754_finite false 5629499534213120 (-48))
  /\ pressure_check "Ada" (Mock.fields "22.5" "3.1" "1.5")
                    (Mock.fields "20.0" "0.0" "1.0")
                    Mock.steps_before_bucket (Mock.awake [] [])
     = pressure_verdict "Ada" (Mock.fields "22.5" "3.1" "1.5")
                        (Mock.fields "20.0" "0.0" "1.0")
                        Mock.steps_before_bucket false (Mock.awake [] [])
  /\ temperature_check "Ada" (Mock.fields "22.5" "3.1" "1.5")
                       (Mock.fields "20.0" "0.0" "1.0")
                       Mock.steps_before_bucket (Mock.awake [] [])
     = temperature_verdict "Ada" (Mock.fields "22.5" "3.1" "1.5")
                           (Mock.fields "20.0" "0.0" "1.0")
                           Mock.steps_before_bucket false (Mock.awake [] []).
Proof.
  assert (H1 : reading (Mock.fields "22.5" "3.1" "1.5") 3
                       (S754_finite false 6755399441055744 (-52)))
    by (exists "1.5"; split; vm_compute; reflexivity).
  assert (H2 : reading (Mock.fields "20.0" "0.0" "1.0") 3
                       (S754_finite false 4503599627370496 (-52)))
    by (exists "1.0"; split; vm_compute; reflexivity).
  assert (H3 : reading (Mock.fields "22.5" "3.1" "1.5") 1
                       (S754_finite false 6333186975989760 (-48)))
    by (exists "22.5"; split; vm_compute; reflexivity).
  assert (H4 : reading (Mock.fields "20.0" "0.0" "1.0") 1
                       (S754_finite false 5629499534213120 (-48)))
    by (exists "20.0"; split; vm_compute; reflexivity).
  repeat (split; [assumption |]).
  exact (differential_checks
           "Ada" _ _ _ _ _ _ Mock.steps_before_bucket (Mock.awake [] [])
           H1 H2 H3 H4 eq_refl eq_refl eq_refl).
Defined.

(* ================================================================== *)
(** * The plausibility check *)
(* ================================================================== *)

Lemma out_of_bounds_cold_or_hot sample_air t w :
  reading sample_air 1 t ->
  (PyFloat.ltb t (PyFloat.of_Z 10) || PyFloat.gtb t (PyFloat.of_Z 30))%bool
  = true ->
  out_of_bounds sample_air w = (Ret true, w).
Proof.
  intros Ht H. unfold out_of_bounds.
  rewrite (bind_ret_intro _ _ _ _ _ (float_at_reading _ _ _ w Ht)).
  destruct (PyFloat.ltb t (PyFloat.of_Z 10)); [reflexivity |].
  rewrite (bind_ret_intro _ _ _ _ _ (float_at_reading _ _ _ w Ht)).
  rewrite orb_false_l in H. rewrite H. reflexivity.
Qed.

Lemma out_of_bounds_readings sample_air t c p w :
  reading sample_air 1 t -> reading sample_air 2 c -> reading sample_air 3 p ->
  out_of_bounds sample_air w
  = (Ret (PyFloat.ltb t (PyFloat.of_Z 10) || PyFloat.gtb t (PyFloat.of_Z 30)
          || PyFloat.ltb c (PyFloat.of_Z (-1)) || PyFloat.gtb c (PyFloat.of_Z 1)
          || PyFloat.ltb p (PyFloat.of_Z (-2)) || PyFloat.gtb p (PyFloat.of_Z 2))%bool,
     w).
Proof.
  intros Ht Hc Hp. unfold out_of_bounds.
  rewrite (bind_ret_intro _ _ _ _ _ (float_at_reading _ _ _ w Ht)).
  destruct (PyFloat.ltb t (PyFloat.of_Z 10)); [reflexivity |].
  rewrite (bind_ret_intro _ _ _ _ _ (float_at_reading _ _ _ w Ht)).
  destruct (PyFloat.gtb t (PyFloat.of_Z 30)); [reflexivity |].
  rewrite (bind_ret_intro _ _ _ _ _ (float_at_reading _ _ _ w Hc)).
  destruct (PyFloat.ltb c (PyFloat.of_Z (-1))); [reflexivity |].
  rewrite (bind_ret_intro _ _ _ _ _ (float_at_reading _ _ _ w Hc)).
  destruct (PyFloat.gtb c (PyFloat.of_Z 1)); [reflexivity |].
  rewrite (bind_ret_intro _ _ _ _ _ (float_at_reading _ _ _ w Hp)).
  destruct (PyFloat.ltb p (PyFloat.of_Z (-2))); [reflexivity |].
  rewrite (bind_ret_intro _ _ _ _ _ (float_at_reading _ _ _ w Hp)).
  reflexivity.
Qed.

(** C8.  A reading of temperature 15.0, conductivity 0.0 and pressure
    0.0 is within the bounds: step 7 is marked as passed and the
    operator is not asked.  A reading of temperature 35.0 is out of
    bounds whatever its other fields are: the violation is announced
    and the operator decides. *)
Theorem plausibility_bounds
        (username : string) (plausible hot : list string)
        (st : Steps) (w : World) :
  reading plausible 1 (PyFloat.of_Z 15) ->
  reading plausible 2 (PyFloat.of_Z 0) ->
  reading plausible 3 (PyFloat.of_Z 0) ->
  reading hot 1 (PyFloat.of_Z 35) ->
  out_of_bounds plausible w = (Ret false, w)
  /\ plausibility_check username plausible st w
     = (st <- mark_passed st 7
                ("Sample values seem reasonable." ++ Py.CRLF
                 ++ Py.join ", " plausible) ;;
        ret (Next, st))%py w
  /\ out_of_bounds hot w = (Ret true, w)
  /\ plausibility_check username hot st w
     = ask_operator
         username
         (print ("The sample data don't seem quite right." ++ Py.CRLF
                 ++ Py.join " " hot))
         (st <- mark_passed st 7
                  ("Sample values seem reasonable." ++ Py.CRLF
                   ++ Py.join ", " hot) ;;
          ret (Next, st))%py
         (st <- set_testdata st 7
                  ("The sample data are invalid." ++ Py.CRLF
                   ++ Py.join ", " hot) ;;
          ret (Next, st))%py
         (ret (Continue, st)) w.
Proof.
  intros Ht Hc Hp Hhot.
  assert (Hok : out_of_bounds plausible w = (Ret false, w))
    by (rewrite (out_of_bounds_readings _ _ _ _ w Ht Hc Hp); reflexivity).
  assert (Hbad : out_of_bounds hot w = (Ret true, w))
    by (apply (out_of_bounds_cold_or_hot _ _ w Hhot); reflexivity).
  repeat apply conj.
  - exact Hok.
  - unfold plausibility_check. rewrite (bind_ret_intro _ _ _ _ _ Hok).
    reflexivity.
  - exact Hbad.
  - unfold plausibility_check. rewrite (bind_ret_intro _ _ _ _ _ Hbad).
    reflexivity.
Qed.

Lemma plausibility_bounds_witness :
  reading (Mock.fields "15.0" "0.0" "0.0") 1 (PyFloat.of_Z 15)
  /\ reading (Mock.fields "15.0" "0.0" "0.0") 2 (PyFloat.of_Z 0)
  /\ reading (Mock.fields "15.0" "0.0" "0.0") 3 (PyFloat.of_Z 0)
  /\ reading (Mock.fields "35.0" "0.0" "0.0") 1 (PyFloat.of_Z 35)
  /\ out_of_bounds (Mock.fields "15.0" "0.0" "0.0") (Mock.awake [] [])
     = (Ret false, Mock.awake [] [])
  /\ out_of_bounds (Mock.fields "35.0" "0.0" "0.0") (Mock.awake [] [])
     = (Ret true, Mock.awake [] []).
Proof.
  assert (H1 : reading (Mock.fields "15.0" "0.0" "0.0") 1 (PyFloat.of_Z 15))
    by (exists "15.0"; split; vm_compute; reflexivity).
  assert (H2 : reading (Mock.fields "15.0" "0.0" "0.0") 2 (PyFloat.of_Z 0))
    by (exists "0.0"; split; vm_compute; reflexivity).
  assert (H3 : reading (Mock.fields "15.0" "0.0" "0.0") 3 (PyFloat.of_Z 0))
    by (exists "0.0"; split; vm_compute; reflexivity).
  assert (H4 : reading (Mock.fields "35.0" "0.0" "0.0") 1 (PyFloat.of_Z 35))
    by (exists "35.0"; split; vm_compute; reflexivity).
  repeat (split; [assumption |]).
  destruct (plausibility_bounds "Ada" _ _ Mock.steps_before_bucket
                                (Mock.awake [] []) H1 H2 H3 H4)
    as (Hok & _ & Hbad & _).
  split; [exact Hok | exact Hbad].
Defined.

(* ================================================================== *)
(** * Parsing a sample *)
(* ================================================================== *)












(** A reply of the instrument to [ts], and two replies that are too
    short. *)
Example split_csv_of_a_sample :
  fst (split_csv (Mock.sample "20.0" "0.0" "1.0" "22 Jun 2020")
                 (Mock.awake [] []))
  = Ret ["12345"; "20.0"; "0.0"; "1.0"; "22 Jun 2020"; "12:00:40"]
  /\ fst (split_csv (" 12345,  20.0, 0.0,  1.0" ++ Py.CRLF) (Mock.awake [] []))
     = Raise IndexError
  /\ fst (split_csv "" (Mock.awake [] [])) = Raise IndexError.
Proof. vm_compute. repeat apply conj; reflexivity. Qed.

(* ================================================================== *)
(** * Cancellation during the handshake *)
(* ================================================================== *)

Lemma print_inv s u w w' :
  print s w = (Ret u, w') ->
  ser w' = ser w /\ capfile w' = capfile w /\ device w' = device w
  /\ stdout w' = (stdout w ++ [s])%list.
Proof. unfold print. intros H. inversion H. repeat split; reflexivity. Qed.

Lemma input_inv prompt a w w' :
  input prompt w = (Ret a, w') ->
  ser w' = ser w /\ capfile w' = capfile w /\ device w' = device w
  /\ stdout w' = (stdout w ++ [prompt])%list
  /\ stdin w = a :: stdin w'.
Proof.
  unfold input. destruct (stdin w) as [| x rest] eqn:E; intros H; inversion H.
  repeat split; reflexivity.
Qed.

Lemma ready_same w w' :
  ser w' = ser w -> capfile w' = capfile w -> ready w -> ready w'.
Proof. unfold ready. intros -> ->. trivial. Qed.

Lemma get_remote_id_declined : forall fuel w w',
  get_remote_id fuel w = (Ret None, w') -> declined_state w'.
Proof.
  induction fuel as [| fuel IH]; intros w w' H; [discriminate |].
  simpl in H. bind_inv H as q w1 Hq.
  apply ser_coms_inv in Hq. destruct Hq as (_ & _ & Hr & _).
  destruct (search_id q); [apply ret_inv in H; destruct H; discriminate |].
  bind_inv H as u w2 Hp. apply print_inv in Hp.
  destruct Hp as (Hs2 & Hc2 & _ & _).
  bind_inv H as a w3 Hi. apply input_inv in Hi.
  destruct Hi as (Hs3 & Hc3 & _ & Hout & _).
  destruct (String.eqb a "n").
  - apply ret_inv in H. destruct H as [_ <-]. split.
    + apply (ready_same w2); [assumption | assumption |].
      apply (ready_same w1); assumption.
    + eexists. exact Hout.
  - eapply IH. exact H.
Qed.

Lemma reset_remote_id_declined : forall fuel id w w',
  reset_remote_id fuel id w = (Ret None, w') -> declined_state w'.
Proof.
  induction fuel as [| fuel IH]; intros id w w' H; [discriminate |].
  simpl in H. bind_inv H as q w1 Hq.
  apply ser_coms_inv in Hq. destruct Hq as (_ & _ & Hr & _).
  destruct (Py.contains "FAILED" q).
  - bind_inv H as u w2 Hp. apply print_inv in Hp.
    destruct Hp as (Hs2 & Hc2 & _ & _).
    bind_inv H as a w3 Hi. apply input_inv in Hi.
    destruct Hi as (Hs3 & Hc3 & _ & Hout & _).
    destruct (String.eqb a "n").
    + apply ret_inv in H. destruct H as [_ <-]. split.
      * apply (ready_same w2); [assumption | assumption |].
        apply (ready_same w1); assumption.
      * eexists. exact Hout.
    + eapply IH. exact H.
  - match type of H with
    | context [if ?c then ret _ else _] => destruct c
    end.
    + apply ret_inv in H. destruct H; discriminate.
    + eapply IH. exact H.
Qed.

Lemma reassign_loop_declined : forall fuel id w w',
  reassign_loop fuel id w = (Ret None, w') -> declined_state w'.
Proof.
  induction fuel as [| fuel IH]; intros id w w' H; simpl in H;
    (destruct (negb (String.eqb id desired_id));
     [| apply ret_inv in H; destruct H; discriminate]);
    [discriminate |].
  bind_inv H as u w1 Hp.
  bind_inv H as r w2 Hr.
  destruct r as [id' |].
  - bind_inv H as u' w3 Hp'. eapply IH. exact H.
  - apply ret_inv in H. destruct H as [_ <-].
    apply (reset_remote_id_declined (S fuel) desired_id w1). exact Hr.
Qed.

Lemma handshake_cancelled fuel w cancelled w' :
  handshake fuel w = (Ret (inl cancelled), w') ->
  declined_state w'
  /\ (cancelled = "Attention! Test cancelled by user."
      \/ cancelled = "Error! Test cancelled by user.").
Proof.
  unfold handshake. intros H.
  bind_inv H as u w1 Hp.
  bind_inv H as r w2 Hr.
  destruct r as [id |].
  - bind_inv H as u' w3 Hp'.
    bind_inv H as r' w4 Hr'.
    destruct r' as [id' |]; apply ret_inv in H; destruct H as [H <-];
      [discriminate |].
    inversion H. split; [| right; reflexivity].
    eapply reassign_loop_declined. exact Hr'.
  - apply ret_inv in H. destruct H as [H <-]. inversion H.
    split; [| left; reflexivity].
    eapply get_remote_id_declined. exact Hr.
Qed.

Lemma delivered_is_ascii t (inc : list (nat * ascii)) :
  is_ascii (string_of_list_ascii (map snd inc)) = true ->
  is_ascii (fst (delivered t inc)) = true.
Proof.
  induction inc as [| [pause c] rest IH]; simpl; [reflexivity |].
  rewrite is_ascii_cons. intros H. apply andb_prop in H. destruct H as [Hc Hs].
  destruct (pause <? t)%nat; [| reflexivity].
  specialize (IH Hs). destruct (delivered t rest) as [s left]. simpl in *.
  rewrite is_ascii_cons, Hc, IH. reflexivity.
Qed.

(** [tidy_up] on an open port: the sleep command is sent, the capture
    file is closed and the port is released. *)
Lemma tidy_up_orderly w :
  ready w -> ascii_to_come w ->
  exists w',
    tidy_up w = (Ret tt, w')
    /\ tx (ser w') = (tx (ser w) ++ [("pwroff" ++ Py.CRLF)%string])%list
    /\ cap_closed (capfile w') = true
    /\ is_open (ser w') = false.
Proof.
  intros Hready Hascii. unfold tidy_up.
  rewrite (bind_ret_intro _ _ _ _ _
             (ser_coms_delivers "pwroff" w Hready eq_refl
                                (delivered_is_ascii _ _ Hascii))).
  eexists. split; [reflexivity |]. simpl. repeat split; reflexivity.
Qed.

(** C9.  When the handshake ends on the operator's decline, at the
    identify prompt or at the reassign prompt, [ctdmo_qct_test] does not
    raise: it sends [pwroff], closes the capture file, releases the
    port and returns the cancellation message.  The instrument is taken
    to answer in ASCII, as its protocol says. *)
Theorem declined_handshake_ends_in_orderly_teardown
        (fuel : nat) (port username formnumber cancelled : string)
        (w w1 w2 : World) :
  setup port formnumber w = (Ret true, w1) ->
  handshake fuel w1 = (Ret (inl cancelled), w2) ->
  ascii_to_come w2 ->
  exists w',
    ctdmo_qct_test fuel port username formnumber w = (Ret cancelled, w')
    /\ (cancelled = "Attention! Test cancelled by user."
        \/ cancelled = "Error! Test cancelled by user.")
    /\ (exists before,
          stdout w2
          = (before ++ ["Would you like to try again? [y]/n "])%list)
    /\ tx (ser w') = (tx (ser w2) ++ [("pwroff" ++ Py.CRLF)%string])%list
    /\ cap_closed (capfile w') = true
    /\ is_open (ser w') = false.
Proof.
  intros Hsetup Hhand Hascii.
  destruct (handshake_cancelled _ _ _ _ Hhand) as ((Hready & Hprompt) & Hmsg).
  destruct (tidy_up_orderly w2 Hready Hascii) as (w' & Htidy & Htx & Hcap & Hser).
  exists w'. repeat apply conj; try assumption.
  assert (Hrun : ctdmo_qct_run fuel port username formnumber w
                 = (Ret (cancelled, None), w')).
  { unfold ctdmo_qct_run.
    rewrite (bind_ret_intro _ _ _ _ _ Hsetup).
    change (negb true) with false. cbv beta iota.
    rewrite (bind_ret_intro _ _ _ _ _ Hhand).
    rewrite (bind_ret_intro _ _ _ _ _ Htidy).
    reflexivity. }
  unfold ctdmo_qct_test. rewrite (bind_ret_intro _ _ _ _ _ Hrun).
  reflexivity.
Qed.

Lemma declined_handshake_ends_in_orderly_teardown_witness :
  setup "COM1" "00123" Mock.unanswered
  = (Ret true, snd (setup "COM1" "00123" Mock.unanswered))
  /\ handshake 3 (snd (setup "COM1" "00123" Mock.unanswered))
     = (Ret (inl "Attention! Test cancelled by user."),
        snd (handshake 3 (snd (setup "COM1" "00123" Mock.unanswered))))
  /\ ascii_to_come (snd (handshake 3 (snd (setup "COM1" "00123" Mock.unanswered))))
  /\ exists w',
       ctdmo_qct_test 3 "COM1" "Ada Lovelace" "00123" Mock.unanswered
       = (Ret "Attention! Test cancelled by user.", w')
       /\ tx (ser w') = ["pwron" ++ Py.CRLF; "id?" ++ Py.CRLF;
                         "pwroff" ++ Py.CRLF]
       /\ cap_closed (capfile w') = true
       /\ is_open (ser w') = false.
Proof.
  assert (H1 : setup "COM1" "00123" Mock.unanswered
               = (Ret true, snd (setup "COM1" "00123" Mock.unanswered)))
    by (apply run_eq; vm_compute; reflexivity).
  assert (H2 : handshake 3 (snd (setup "COM1" "00123" Mock.unanswered))
               = (Ret (inl "Attention! Test cancelled by user."),
                  snd (handshake 3 (snd (setup "COM1" "00123" Mock.unanswered)))))
    by (apply run_eq; vm_compute; reflexivity).
  assert (H3 : ascii_to_come
                 (snd (handshake 3 (snd (setup "COM1" "00123" Mock.unanswered)))))
    by (unfold ascii_to_come; vm_compute; reflexivity).
  repeat (split; [assumption |]).
  destruct (declined_handshake_ends_in_orderly_teardown
              3 "COM1" "Ada Lovelace" "00123" _ _ _ _ H1 H2 H3)
    as (w' & Hrun & _ & _ & Htx & Hcap & Hser).
  exists w'. repeat apply conj; assumption.
Defined.

(** The same at the reassign prompt. *)
Example declined_reassignment_ends_in_orderly_teardown :
  fst (ctdmo_qct_test 3 "COM1" "Ada Lovelace" "00123" Mock.not_reassigned)
  = Ret "Error! Test cancelled by user."
  /\ tx (ser (snd (ctdmo_qct_test 3 "COM1" "Ada Lovelace" "00123"
                                  Mock.not_reassigned)))
     = ["pwron" ++ Py.CRLF; "id?" ++ Py.CRLF; "*id=01" ++ Py.CRLF;
        "pwroff" ++ Py.CRLF]
  /\ cap_closed (capfile (snd (ctdmo_qct_test 3 "COM1" "Ada Lovelace" "00123"
                                              Mock.not_reassigned)))
     = true
  /\ is_open (ser (snd (ctdmo_qct_test 3 "COM1" "Ada Lovelace" "00123"
                                       Mock.not_reassigned)))
     = false.
Proof. vm_compute. repeat apply conj; reflexivity. Qed.

(** The answer [n] at the identify prompt ends [get_remote_id] with
    [None], whatever fuel is left. *)
Lemma decline_at_identify (fuel : nat) (w w1 : World) (q : string)
      (rest : list string) :
  ser_coms "id?" w = (Ret q, w1) ->
  search_id q = None ->
  stdin w1 = "n" :: rest ->
  exists w2, get_remote_id (S fuel) w = (Ret None, w2) /\ stdin w2 = rest.
Proof.
  intros Hq Hs Hin. simpl.
  rewrite (bind_ret_intro _ _ _ _ _ Hq), Hs.
  unfold bind, print, input. simpl. rewrite Hin. simpl.
  eexists. split; reflexivity.
Qed.

(* ================================================================== *)
(** * The number of recorded outcomes *)
(* ================================================================== *)

Lemma ask_operator_inv {A} username announce (accepted declined retry : M A)
      w r w' :
  ask_operator username announce accepted declined retry w = (Ret r, w') ->
  exists w0, accepted w0 = (Ret r, w') \/ declined w0 = (Ret r, w')
             \/ retry w0 = (Ret r, w').
Proof.
  unfold ask_operator. intros H.
  bind_inv H as u w1 Ha. bind_inv H as response w2 Hb.
  destruct (negb (String.eqb response "n")).
  - bind_inv H as again w3 Hc.
    destruct (String.eqb again "n"); exists w3; auto.
  - exists w2. auto.
Qed.

Lemma adjudicate_inv {A} violation username announce
      (accepted declined retry : M A) w r w' :
  adjudicate violation username announce accepted declined retry w
  = (Ret r, w') ->
  exists w0, accepted w0 = (Ret r, w') \/ declined w0 = (Ret r, w')
             \/ retry w0 = (Ret r, w').
Proof.
  destruct violation; simpl.
  - apply ask_operator_inv.
  - intros H. exists w. auto.
Qed.

(** The branches of every check are of three kinds: the lists are left
    as they are, or one entry is assigned in both, or one entry is
    assigned in [testdata]. *)
Lemma keep_slots {A} (e : A) st w r st' w' :
  ret (e, st) w = (Ret (r, st'), w') -> slots st' = slots st.
Proof. intros H. apply ret_inv in H. destruct H as [H _]. congruence. Qed.

Lemma mark_slots {A} (e : A) st i text w r st' w' :
  (s <- mark_passed st i text ;; ret (e, s))%py w = (Ret (r, st'), w') ->
  slots st' = slots st.
Proof.
  intros H. bind_inv H as s w1 Hm. apply mark_passed_inv in Hm.
  destruct Hm as (_ & Hs & _). apply ret_inv in H. destruct H as [H _].
  congruence.
Qed.

Lemma note_slots {A} (e : A) st i text w r st' w' :
  (s <- set_testdata st i text ;; ret (e, s))%py w = (Ret (r, st'), w') ->
  slots st' = slots st.
Proof.
  intros H. bind_inv H as s w1 Hm. apply set_testdata_inv in Hm.
  destruct Hm as (_ & Hs & _). apply ret_inv in H. destruct H as [H _].
  congruence.
Qed.

Ltac slots_of_branches H :=
  apply adjudicate_inv in H;
  let w0 := fresh "w" in
  destruct H as (w0 & [H | [H | H]]);
  first [ exact (keep_slots _ _ _ _ _ _ H)
        | exact (mark_slots _ _ _ _ _ _ _ _ H)
        | exact (note_slots _ _ _ _ _ _ _ _ H) ].

Lemma clock_pass_slots username remote_id st w e st' w' :
  clock_pass username remote_id st w = (Ret (e, st'), w') ->
  slots st' = slots st.
Proof.
  unfold clock_pass. intros H. bind_inv H as r w1 Hset.
  assert (Hs1 : slots (snd r) = slots st).
  { unfold clock_set_check in Hset.
    bind_inv Hset as u w2 Hp. bind_inv Hset as s w3 Hn.
    apply set_testdata_inv in Hn. destruct Hn as (_ & Hs & _).
    bind_inv Hset as now w4 Hnow. bind_inv Hset as x w5 Hx.
    bind_inv Hset as y w6 Hy. bind_inv Hset as instr w7 Hi.
    destruct r as [f s']. simpl. rewrite <- Hs.
    unfold clock_set_decide in Hset. slots_of_branches Hset. }
  destruct r as [[ | ] s]; simpl in Hs1.
  - unfold clock_reset_check in H.
    bind_inv H as now w2 Hnow. bind_inv H as x w3 Hx.
    bind_inv H as y w4 Hy. bind_inv H as instr w5 Hi.
    bind_inv H as now' w6 Hnow'. rewrite <- Hs1.
    unfold clock_reset_decide in H.
    apply adjudicate_inv in H. destruct H as (w0 & [H | [H | H]]).
    + exact (mark_slots _ _ _ _ _ _ _ _ H).
    + bind_inv H as s1 w7 Hn. apply ret_inv in H. destruct H as [H _].
      inversion H; subst. unfold note_clock_not_reset in Hn.
      bind_inv Hn as old w8 Ho.
      destruct old as [[| c t] |]; apply set_testdata_inv in Hn;
        destruct Hn as (_ & Hs & _); exact Hs.
    + exact (keep_slots _ _ _ _ _ _ H).
  - apply ret_inv in H. destruct H as [H _]. inversion H; subst. exact Hs1.
Qed.

Lemma interval_pass_slots i banner desired clear username remote_id
      st w e st' w' :
  interval_pass i banner desired clear username remote_id st w
  = (Ret (e, st'), w') ->
  slots st' = slots st.
Proof.
  unfold interval_pass. intros H.
  bind_inv H as u w1 Hp. bind_inv H as p w2 Hclear.
  assert (Hlen : List.length p = List.length (step_results_p st)).
  { destruct clear.
    - bind_inv Hclear as b w3 Hb. destruct b.
      + apply setitem_inv in Hclear. destruct Hclear as [Hl _].
        eapply list_set_length. exact Hl.
      + apply ret_inv in Hclear. destruct Hclear as [<- _]. reflexivity.
    - apply ret_inv in Hclear. destruct Hclear as [<- _]. reflexivity. }
  bind_inv H as s w3 Hn. apply set_testdata_inv in Hn.
  destruct Hn as (_ & Hs & _).
  assert (Hs' : slots s = slots st)
    by (rewrite Hs; unfold slots; simpl; rewrite Hlen; reflexivity).
  bind_inv H as x w4 Hx. bind_inv H as y w5 Hy.
  unfold interval_decide in H.
  bind_inv H as reported w6 Hr. bind_inv H as u' w7 Hp'.
  rewrite <- Hs'. slots_of_branches H.
Qed.

Lemma set_slice_length {A} (xs l : list A) :
  8 <= List.length l ->
  List.length (Py.set_slice 6 8 xs l) = List.length l - 2 + List.length xs.
Proof.
  intros H. unfold Py.set_slice.
  rewrite !length_app, length_firstn, length_skipn. simpl Nat.max. lia.
Qed.

(** The two slice assignments of lines 464-465 make each list one entry
    longer. *)
Lemma reset_sample_slots_grows st :
  8 <= List.length (step_results_p st) -> 8 <= List.length (testdata st) ->
  slots (reset_sample_slots st)
  = (S (List.length (step_results_p st)), S (List.length (testdata st))).
Proof.
  intros Hp Ht. unfold slots, reset_sample_slots. simpl.
  rewrite !set_slice_length by assumption. simpl. f_equal; lia.
Qed.

Lemma sample_pass_slots username remote_id st w e st' w' :
  sample_pass username remote_id st w = (Ret (e, st'), w') ->
  slots st' = slots (reset_sample_slots st).
Proof.
  unfold sample_pass. intros H. bind_inv H as r w1 Hair.
  unfold acquire_air in Hair.
  bind_inv Hair as u w2 Hp. bind_inv Hair as x w3 Hx.
  bind_inv Hair as sample_air w4 Hcsv.
  apply ret_inv in Hair. destruct Hair as [<- _].
  bind_inv H as r1 w5 Hdate.
  assert (H1 : slots (snd r1) = slots (reset_sample_slots st)).
  { unfold date_stamp_check in Hdate.
    bind_inv Hdate as f w6 Hf. bind_inv Hdate as d w7 Hd.
    bind_inv Hdate as now w8 Hnow.
    destruct r1 as [fl s]. simpl. slots_of_branches Hdate. }
  destruct r1 as [[ | ] s1]; simpl in H1;
    [| apply ret_inv in H; destruct H as [H _]; inversion H; subst; exact H1].
  bind_inv H as r2 w6 Hpl.
  assert (H2 : slots (snd r2) = slots s1).
  { unfold plausibility_check in Hpl. bind_inv Hpl as bad w7 Hbad.
    unfold plausibility_verdict in Hpl.
    destruct r2 as [fl s]. simpl. slots_of_branches Hpl. }
  destruct r2 as [[ | ] s2]; simpl in H2;
    [| apply ret_inv in H; destruct H as [H _]; inversion H; subst; congruence].
  bind_inv H as sample_bucket w7 Hbucket.
  bind_inv H as r3 w8 Hpr.
  assert (H3 : slots (snd r3) = slots s2).
  { unfold pressure_check in Hpr. bind_inv Hpr as bad w9 Hbad.
    unfold pressure_verdict in Hpr.
    destruct r3 as [fl s]. simpl.
    apply adjudicate_inv in Hpr. destruct Hpr as (w0 & [Hpr | [Hpr | Hpr]]).
    - exact (mark_slots _ _ _ _ _ _ _ _ Hpr).
    - exact (note_slots _ _ _ _ _ _ _ _ Hpr).
    - bind_inv Hpr as u1 w10 Hq. bind_inv Hpr as u2 w11 Hq'.
      exact (keep_slots _ _ _ _ _ _ Hpr). }
  destruct r3 as [[ | ] s3]; simpl in H3;
    [| apply ret_inv in H; destruct H as [H _]; inversion H; subst; congruence].
  assert (H4 : slots st' = slots s3).
  { unfold temperature_check in H. bind_inv H as bad w9 Hbad.
    unfold temperature_verdict in H. slots_of_branches H. }
  congruence.
Qed.

Lemma sized_slots n st st' : slots st' = slots st -> sized n st -> sized n st'.
Proof.
  unfold slots, sized. intros H [Hn He]. inversion H as [[Hp Ht]].
  rewrite Hp, Ht. split; assumption.
Qed.

Lemma sample_pass_sized username remote_id n st w e st' w' :
  sample_pass username remote_id st w = (Ret (e, st'), w') ->
  10 <= n -> sized n st -> sized (S n) st'.
Proof.
  intros H Hn [Hp Ht]. apply sample_pass_slots in H.
  rewrite reset_sample_slots_grows in H by lia.
  unfold slots in H. inversion H as [[Hp' Ht']].
  unfold sized. rewrite Hp', Ht'. split; lia.
Qed.

(** A loop whose passes keep a property keeps it. *)
Lemma repeat_until_complete_keeps (P : Steps -> Prop)
      (pass : Steps -> M (pass_end * Steps)) :
  (forall st w e st' w', pass st w = (Ret (e, st'), w') -> P st -> P st') ->
  forall fuel st w st' w',
    repeat_until_complete fuel pass st w = (Ret st', w') -> P st -> P st'.
Proof.
  intros Hpass. induction fuel as [| fuel IH]; intros st w st' w' H HP;
    [discriminate |].
  simpl in H. bind_inv H as r w1 Hr. destruct r as [[ | ] s].
  - eapply IH; [exact H |]. eapply Hpass; eassumption.
  - apply ret_inv in H. destruct H as [<- _]. eapply Hpass; eassumption.
Qed.

(** A returning loop has made a pass. *)
Lemma repeat_until_complete_steps (P Q : Steps -> Prop)
      (pass : Steps -> M (pass_end * Steps)) :
  (forall st w e st' w', pass st w = (Ret (e, st'), w') -> P st -> Q st') ->
  (forall st w e st' w', pass st w = (Ret (e, st'), w') -> Q st -> Q st') ->
  forall fuel st w st' w',
    repeat_until_complete fuel pass st w = (Ret st', w') -> P st -> Q st'.
Proof.
  intros Hfirst Hnext fuel st w st' w' H HP.
  destruct fuel as [| fuel]; [discriminate |].
  simpl in H. bind_inv H as r w1 Hr. destruct r as [[ | ] s].
  - eapply (repeat_until_complete_keeps Q pass Hnext); [exact H |].
    eapply Hfirst; eassumption.
  - apply ret_inv in H. destruct H as [<- _]. eapply Hfirst; eassumption.
Qed.

Lemma initial_steps_sized st w w' :
  initial_steps w = (Ret st, w') -> sized 10 st.
Proof.
  unfold initial_steps. intros H. apply mark_passed_inv in H.
  destruct H as (_ & Hs & _). eapply sized_slots; [exact Hs |].
  split; simpl; [lia | reflexivity].
Qed.

Lemma identify_instrument_slots fuel username remote_id st w sn sl st' w' :
  identify_instrument fuel username remote_id st w = (Ret (sn, sl, st'), w') ->
  slots st' = slots st.
Proof.
  unfold identify_instrument. intros H.
  bind_inv H as x w1 Hx. bind_inv H as y w2 Hy.
  bind_inv H as s5 w3 H5. bind_inv H as s2 w4 H2.
  bind_inv H as u1 w5 Hp1. bind_inv H as u2 w6 Hp2.
  bind_inv H as st1 w7 Hm1. bind_inv H as st2 w8 Hm2.
  apply mark_passed_inv in Hm1. destruct Hm1 as (_ & Hs1 & _).
  apply mark_passed_inv in Hm2. destruct Hm2 as (_ & Hs2 & _).
  bind_inv H as inv w9 Hinv. bind_inv H as letter w10 Hl.
  bind_inv H as u3 w11 Hp3. bind_inv H as pn w12 Hpn.
  bind_inv H as u4 w13 Hp4.
  apply ret_inv in H. destruct H as [H _]. inversion H; subst. congruence.
Qed.

(** When the steps of the procedure have all been run, each of the two
    lists has eleven entries at least. *)
Lemma run_steps_sized fuel username formnumber remote_id w sn sl st w' :
  run_steps fuel username formnumber remote_id w = (Ret (sn, sl, st), w') ->
  sized 11 st.
Proof.
  unfold run_steps. intros H.
  bind_inv H as st0 w1 H0. apply initial_steps_sized in H0.
  bind_inv H as r w2 Hid. destruct r as [[sn' sl'] st1].
  apply identify_instrument_slots in Hid.
  pose proof (sized_slots _ _ _ Hid H0) as H1.
  bind_inv H as u1 w3 Hh. bind_inv H as u2 w4 Hc.
  bind_inv H as st2 w5 Hclock.
  apply (repeat_until_complete_keeps (sized 10)) in Hclock; [| | exact H1].
  2:{ intros s v e s' v' Hp Hs. apply clock_pass_slots in Hp.
      eapply sized_slots; eassumption. }
  bind_inv H as st3 w6 Hi1.
  apply (repeat_until_complete_keeps (sized 10)) in Hi1; [| | exact Hclock].
  2:{ intros s v e s' v' Hp Hs. apply interval_pass_slots in Hp.
      eapply sized_slots; eassumption. }
  bind_inv H as st4 w7 Hi2.
  apply (repeat_until_complete_keeps (sized 10)) in Hi2; [| | exact Hi1].
  2:{ intros s v e s' v' Hp Hs. apply interval_pass_slots in Hp.
      eapply sized_slots; eassumption. }
  bind_inv H as st5 w8 Hs.
  apply (repeat_until_complete_steps (sized 10) (sized 11)) in Hs;
    [| | | exact Hi2].
  - apply ret_inv in H. destruct H as [H _]. inversion H; subst. exact Hs.
  - intros s v e s' v' Hp Hz.
    exact (sample_pass_sized _ _ 10 _ _ _ _ _ Hp (le_n 10) Hz).
  - intros s v e s' v' Hp [Hn He].
    assert (Hz : sized 10 s) by (split; [lia | exact He]).
    destruct (sample_pass_sized _ _ 10 _ _ _ _ _ Hp (le_n 10) Hz) as [Hn' He'].
    apply sample_pass_slots in Hp.
    rewrite reset_sample_slots_grows in Hp by lia.
    unfold slots in Hp. inversion Hp as [[Hp1 Hp2]].
    split; [lia | exact He'].
Qed.

(** No completed run ends with ten outcomes: when [ctdmo_qct_test]
    returns from its last line, each of the two lists has eleven entries
    at least. *)
Lemma completed_run_sized fuel port username formnumber w msg st w' :
  ctdmo_qct_run fuel port username formnumber w = (Ret (msg, Some st), w') ->
  msg = "Test complete."
  /\ 11 <= List.length (step_results_p st)
  /\ List.length (testdata st) = List.length (step_results_p st).
Proof.
  unfold ctdmo_qct_run. intros H.
  bind_inv H as ok w1 Hsetup.
  destruct (negb ok);
    [apply ret_inv in H; destruct H as [H _]; discriminate |].
  bind_inv H as r w2 Hhand. destruct r as [cancelled | remote_id].
  - bind_inv H as u w3 Ht. apply ret_inv in H. destruct H as [H _].
    discriminate.
  - bind_inv H as r w3 Hrun. destruct r as [[sn sl] st0].
    apply run_steps_sized in Hrun.
    bind_inv H as u1 w4 Hw. bind_inv H as u2 w5 Ht.
    apply ret_inv in H. destruct H as [H _]. inversion H; subst.
    destruct Hrun as [Hn He]. repeat split; assumption.
Qed.


(** C1, the run the claim fails on.  A scripted run against a mock
    instrument in which every check passes at once returns
    [Test complete.] with eleven entries in each list, the last of
    [testdata] being [None]: the slice assignments of lines 464-465 put
    three entries in the place of two.  The claim says ten. *)
Theorem completed_run_has_eleven_outcomes :
  exists st,
    fst (ctdmo_qct_run 3 "COM1" "Ada Lovelace King" "00123" Mock.smooth_run)
    = Ret ("Test complete.", Some st)
    /\ List.length (step_results_p st) = 11
    /\ List.length (testdata st) = 11
    /\ nth_error (testdata st) 10 = Some None.
Proof.
  eexists. split; [vm_compute; reflexivity |].
  repeat apply conj; vm_compute; reflexivity.
Qed.

(** With one repeated pass of the sample loop the lists have twelve
    entries and the entries have moved: the pass mark that step 8 won in
    the first pass stands at index 9 when the second pass begins, and
    the run ends with the temperature step marked as passed in the
    results document, next to the evidence of its failure. *)
Example repeated_pass_shifts_the_outcomes :
  exists st,
    fst (ctdmo_qct_run 3 "COM1" "Ada Lovelace King" "00123" Mock.cold_water_run)
    = Ret ("Test complete.", Some st)
    /\ List.length (step_results_p st) = 12
    /\ nth_error (step_results_p st) 9 = Some true
    /\ nth_error (testdata st) 9
       = Some (Some ("The temperature did not increase as expected."
                     ++ Py.CRLF
                     ++ "12345, 20.2, 3.1, 1.0, 22 Jun 2020, 12:00:40"))
    /\ nth_error
         (report (snd (ctdmo_qct_run 3 "COM1" "Ada Lovelace King" "00123"
                                     Mock.cold_water_run)))
         15
       = Some (StepRow 11
                 (Some ("The temperature did not increase as expected."
                        ++ Py.CRLF
                        ++ "12345, 20.2, 3.1, 1.0, 22 Jun 2020, 12:00:40"))
                 "X" "").
Proof.
  eexists. split; [vm_compute; reflexivity |].
  repeat apply conj; vm_compute; reflexivity.
Qed.
